(** * YourCarbonFootprint: the retrieval pipeline of [rag_system.py]

    A shallow embedding of the class [CarbonFootprintRAG] and of the
    properties its specification states about it.

    Python objects and the outside world are modelled as one record,
    [World]: the fields of the [CarbonFootprintRAG] instance, the heap of
    FAISS store objects those fields point to, the knowledge-base directory,
    the persisted index directories and the lines printed so far.  A method
    is a function from a [World] to an [outcome]: it either returns a value
    or raises a Python exception, and in both cases hands back the world it
    leaves behind.

    Third-party code (langchain, FAISS, the Groq model) is not part of the
    repository.  What the methods need from it is gathered in the record
    [Externals]; the file-system facing calls are modelled after the
    libraries' documented behaviour and say so where they are defined. *)

From Stdlib Require Import ZArith String Ascii List Lia DecimalString Sorted.
From stdpp Require Import base option list strings gmap.

Local Open Scope Z_scope.

(** ** Python values *)

(** [len(s)] as a Python [int]. *)
Definition len (s : string) : Z := Z.of_nat (String.length s).

(** The line feed of the literal ["\n"]. *)
Definition nl : string := String "010"%char EmptyString.

(** [str(n)] for a non-negative [int], as used by the f-strings. *)
Definition str_nat (n : nat) : string := NilZero.string_of_uint (Nat.to_uint n).

(** [sep.join(parts)]. *)
Definition join (sep : string) (parts : list string) : string :=
  String.concat sep parts.

(** A raised exception: its class name and the text [str(e)] yields. *)
Record exn := Exception { exn_class : string; exn_str : string }.

(** [langchain.schema.Document]; the metadata is the source path. *)
Record Document := { page_content : string; metadata : string }.

(** Calling a method on [None]. *)
Definition none_has_no (attr : string) : exn :=
  Exception "AttributeError"
            ("'NoneType' object has no attribute '" +:+ attr +:+ "'").

(** ** The world *)

(** A source file of the knowledge base: [file_text] is [None] when the
    file cannot be read or decoded as UTF-8. *)
Record File := { file_path : string; file_text : option string }.

(** What a directory written by [save_local] holds: a snapshot that
    deserialises to the listed entries, or data that fails to. *)
Inductive Persisted :=
| Snapshot (entries : list Document)
| Unreadable (why : exn).

(** The object built by [RetrievalQA.from_chain_type]: the prompt, and the
    retriever made by [as_retriever], which keeps a reference to the store
    object it was made from. *)
Record Chain := {
  chain_prompt : string;
  chain_store : nat;
  chain_k : nat;
  chain_return_source_documents : bool }.

Record World := {
  (* the instance *)
  knowledge_base_path : string;
  vector_store : option nat;
  qa_chain : option Chain;
  (* FAISS store objects, by identity; an object is the list of the
     documents it indexes, in insertion order *)
  heap : list (list Document);
  (* the file system *)
  kb_dir : list File;
  index_dir : gmap string Persisted;
  saves : list string;
  (* standard output, one entry per [print] *)
  stdout : list string }.

Definition set_vector_store (v : option nat) (w : World) : World :=
  {| knowledge_base_path := knowledge_base_path w; vector_store := v;
     qa_chain := qa_chain w; heap := heap w; kb_dir := kb_dir w;
     index_dir := index_dir w; saves := saves w; stdout := stdout w |}.

Definition set_qa_chain (c : option Chain) (w : World) : World :=
  {| knowledge_base_path := knowledge_base_path w;
     vector_store := vector_store w; qa_chain := c; heap := heap w;
     kb_dir := kb_dir w; index_dir := index_dir w; saves := saves w;
     stdout := stdout w |}.

Definition set_heap (h : list (list Document)) (w : World) : World :=
  {| knowledge_base_path := knowledge_base_path w;
     vector_store := vector_store w; qa_chain := qa_chain w; heap := h;
     kb_dir := kb_dir w; index_dir := index_dir w; saves := saves w;
     stdout := stdout w |}.

Definition write_index (path : string) (p : Persisted) (w : World) : World :=
  {| knowledge_base_path := knowledge_base_path w;
     vector_store := vector_store w; qa_chain := qa_chain w; heap := heap w;
     kb_dir := kb_dir w; index_dir := <[path := p]> (index_dir w);
     saves := saves w ++ [path]; stdout := stdout w |}.

Definition emit (line : string) (w : World) : World :=
  {| knowledge_base_path := knowledge_base_path w;
     vector_store := vector_store w; qa_chain := qa_chain w; heap := heap w;
     kb_dir := kb_dir w; index_dir := index_dir w; saves := saves w;
     stdout := stdout w ++ [line] |}.

(** ** Methods: state and exceptions *)

Inductive outcome (A : Type) :=
| Returns (a : A) (w : World)
| Raises (e : exn) (w : World).
Arguments Returns {A} a w.
Arguments Raises {A} e w.

Definition M (A : Type) : Type := World -> outcome A.

Definition ret {A} (a : A) : M A := fun w => Returns a w.

Definition bind {A B} (m : M A) (k : A -> M B) : M B :=
  fun w => match m w with
           | Returns a w' => k a w'
           | Raises e w' => Raises e w'
           end.

Definition raise {A} (e : exn) : M A := fun w => Raises e w.

(** [try: body / except Exception as e: handler e]. *)
Definition try_except {A} (body : M A) (handler : exn -> M A) : M A :=
  fun w => match body w with
           | Returns a w' => Returns a w'
           | Raises e w' => handler e w'
           end.

Definition get : M World := fun w => Returns w w.
Definition modify (f : World -> World) : M unit := fun w => Returns tt (f w).
Definition print (line : string) : M unit := modify (emit line).

#[global] Instance M_ret : MRet M := @ret.
#[global] Instance M_bind : MBind M := fun A B k m => bind m k.

(** Whether a call returned, and the world it left. *)
Definition returned {A} (o : outcome A) : bool :=
  match o with Returns _ _ => true | Raises _ _ => false end.

Definition world_of {A} (o : outcome A) : World :=
  match o with Returns _ w => w | Raises _ w => w end.

(** ** Third-party calls *)

Inductive result (A : Type) :=
| Ok (a : A)
| Err (e : exn).
Arguments Ok {A} a.
Arguments Err {A} e.

(** The behaviour of the libraries the class is built on, as far as the
    methods observe it. *)
Record Externals := {
  (* [RecursiveCharacterTextSplitter(chunk_size, chunk_overlap,
     length_function=len).split_text] *)
  split_text : nat -> nat -> string -> list string;
  (* the embedding model run by [FAISS.from_documents] and
     [add_documents]: [Some e] when it raises [e] *)
  embed_documents : list Document -> option exn;
  (* [store.similarity_search(query, k=k)] on a store holding the given
     documents *)
  similarity_search : list Document -> string -> nat -> result (list Document);
  (* the language model called by the chain on the filled-in prompt *)
  generate : string -> list Document -> string -> result string }.

(** Writing an index directory and building the chain object are taken to
    succeed. *)

(** [os.path.join(a, b)] on POSIX paths. *)
Definition ends_with_slash (a : string) : bool :=
  match String.get (String.length a - 1) a with
  | Some c => Ascii.eqb c "/"%char
  | None => false
  end.

Definition os_path_join (a b : string) : string :=
  if String.prefix "/" b then b
  else if (String.eqb a "" || ends_with_slash a)%bool then a +:+ b
  else a +:+ "/" +:+ b.

(** [os.path.join(self.knowledge_base_path, "faiss_index")], the value of
    the local [vector_store_path] of the methods. *)
Definition faiss_index_path (w : World) : string :=
  os_path_join (knowledge_base_path w) "faiss_index".

(** [TextLoader(path, encoding='utf-8').load()]. *)
Definition TextLoader_load (f : File) : result Document :=
  match file_text f with
  | Some text => Ok {| page_content := text; metadata := file_path f |}
  | None => Err (Exception "RuntimeError" ("Error loading " +:+ file_path f))
  end.

(** [DirectoryLoader(...).load()] over the files the glob matched.  The
    library loads the files one after the other; a file whose loader raises
    is skipped when [silent_errors] is set and aborts the whole load with
    that error otherwise.  [silent_errors] defaults to [False]. *)
Fixpoint DirectoryLoader_load (silent_errors : bool) (files : list File)
  : result (list Document) :=
  match files with
  | [] => Ok []
  | f :: rest =>
      match TextLoader_load f with
      | Ok d =>
          match DirectoryLoader_load silent_errors rest with
          | Ok ds => Ok (d :: ds)
          | Err e => Err e
          end
      | Err e =>
          if silent_errors then DirectoryLoader_load silent_errors rest
          else Err e
      end
  end.

(** [FAISS.load_local(path, embeddings, ...)] on what the path holds. *)
Definition FAISS_load_local (p : Persisted) : result (list Document) :=
  match p with
  | Snapshot entries => Ok entries
  | Unreadable why => Err why
  end.

Definition lift {A} (r : result A) : M A :=
  match r with
  | Ok a => ret a
  | Err e => raise e
  end.

(** A new store object; its identity is returned. *)
Definition alloc (entries : list Document) : M nat :=
  fun w => Returns (length (heap w)) (set_heap (heap w ++ [entries]) w).

(** The documents of the store object [r]. *)
Definition deref (r : nat) : M (list Document) :=
  fun w => Returns (default [] (heap w !! r)) w.

(** [store.save_local(path)]. *)
Definition save_local (r : nat) (path : string) : M unit :=
  entries ← deref r;
  modify (write_index path (Snapshot entries)).

(** The search keeps to the number of documents it is asked for, as
    [similarity_search(query, k=k)] does: it returns the [k] most similar
    entries, or all of them when the store holds fewer. *)
Definition honours_k (X : Externals) : Prop :=
  forall entries query k docs,
    similarity_search X entries query k = Ok docs ->
    (length docs <= k)%nat.

(** ** The class [CarbonFootprintRAG] *)

(** The dictionary [query] returns. *)
Record Answer := { answer : string; source_documents : list Document }.

Definition prompt_template : string :=
  "You are an expert in carbon accounting, emissions tracking, and environmental regulations." +:+ nl +:+
  "Use the following pieces of context to answer the question at the end. " +:+ nl +:+
  "If you don't know the answer based on the context, just say that you don't know, don't try to make up an answer." +:+ nl +:+
  "Always cite the relevant regulations or standards when applicable." +:+ nl +:+
  nl +:+
  "Context: {context}" +:+ nl +:+
  nl +:+
  "Question: {question}" +:+ nl +:+
  nl +:+
  "Answer: ".

(** What [get_context_for_agent] returns when nothing was retrieved. *)
Definition no_context : string :=
  "No relevant context found in knowledge base.".

(** The block [f"[Source {i}]: {doc.page_content}\n"] and its header. *)
Definition source_header (i : nat) : string :=
  "[Source " +:+ str_nat i +:+ "]: ".

Definition source_block (i : nat) (doc : Document) : string :=
  source_header i +:+ page_content doc +:+ nl.

(** The [for] loop of [get_context_for_agent], entered at rank [i] with the
    documents still to visit; it yields the final [context_parts]. *)
Fixpoint context_loop (max_length : Z) (i : nat) (docs : list Document)
    (context_parts : list string) (current_length : Z) : list string :=
  match docs with
  | [] => context_parts
  | doc :: rest =>
      let doc_text := source_block i doc in
      if current_length + len doc_text >? max_length then context_parts
      else context_loop max_length (S i) rest
             (context_parts ++ [doc_text]) (current_length + len doc_text)
  end.

Section CarbonFootprintRAG.

Context (X : Externals).

(** [text_splitter.split_documents(documents)]: the chunks of each
    document, in order, each carrying its document's metadata. *)
Definition split_documents (chunk_size chunk_overlap : nat)
    (documents : list Document) : list Document :=
  flat_map
    (fun d =>
       map (fun c => {| page_content := c; metadata := metadata d |})
           (split_text X chunk_size chunk_overlap (page_content d)))
    documents.

Definition load_documents : M (list Document) :=
  try_except
    (w ← get;
     documents ← lift (DirectoryLoader_load false (kb_dir w));
     let splits := split_documents 1000 200 documents in
     mret splits)
    (fun e =>
       print ("Error loading documents: " +:+ exn_str e);;
       mret []).

(** [FAISS.from_documents(documents, embedding)]. *)
Definition FAISS_from_documents (documents : list Document) : M nat :=
  match embed_documents X documents with
  | Some e => raise e
  | None => alloc documents
  end.

(** [store.add_documents(documents)]: the store object is extended in
    place. *)
Definition store_add_documents (r : nat) (documents : list Document)
  : M unit :=
  match embed_documents X documents with
  | Some e => raise e
  | None =>
      modify (fun w => set_heap (alter (fun s => s ++ documents) r (heap w)) w)
  end.

Definition create_vector_store (documents : option (list Document))
  : M unit :=
  documents ← match documents with
              | None => load_documents
              | Some given => mret given
              end;
  match documents with
  | [] => print "No documents found to create vector store."
  | _ :: _ =>
      r ← FAISS_from_documents documents;
      modify (set_vector_store (Some r));;
      w ← get;
      let vector_store_path := faiss_index_path w in
      save_local r vector_store_path;;
      print ("Vector store created with "
             +:+ str_nat (length documents) +:+ " document chunks.")
  end.

Definition load_vector_store : M unit :=
  w ← get;
  let vector_store_path := faiss_index_path w in
  match index_dir w !! vector_store_path with
  | Some persisted =>
      entries ← lift (FAISS_load_local persisted);
      r ← alloc entries;
      modify (set_vector_store (Some r));;
      print "Vector store loaded successfully."
  | None =>
      print "No existing vector store found. Creating new one...";;
      create_vector_store None
  end.

(** [if self.vector_store is None: self.load_vector_store()]. *)
Definition ensure_vector_store : M unit :=
  w ← get;
  match vector_store w with
  | None => load_vector_store
  | Some _ => mret tt
  end.

Definition add_documents (documents : list Document) : M unit :=
  ensure_vector_store;;
  match documents with
  | [] => mret tt
  | _ :: _ =>
      w ← get;
      match vector_store w with
      | None => raise (none_has_no "add_documents")
      | Some r =>
          store_add_documents r documents;;
          let vector_store_path := faiss_index_path w in
          save_local r vector_store_path;;
          print ("Added " +:+ str_nat (length documents)
                 +:+ " documents to vector store.")
      end
  end.

Definition setup_qa_chain : M unit :=
  ensure_vector_store;;
  w ← get;
  match vector_store w with
  | None => raise (none_has_no "as_retriever")
  | Some r =>
      modify (set_qa_chain
                (Some {| chain_prompt := prompt_template;
                         chain_store := r;
                         chain_k := 4;
                         chain_return_source_documents := true |}))
  end.

(** [chain.invoke({"query": question})]: retrieve, fill the prompt, call
    the model. *)
Definition invoke (c : Chain) (question : string)
  : M (string * list Document) :=
  entries ← deref (chain_store c);
  docs ← lift (similarity_search X entries question (chain_k c));
  text ← lift (generate X (chain_prompt c) docs question);
  mret (text, docs).

Definition query (question : string) : M Answer :=
  w ← get;
  match qa_chain w with
  | None => setup_qa_chain
  | Some _ => mret tt
  end;;
  try_except
    (w ← get;
     match qa_chain w with
     | None => raise (none_has_no "invoke")
     | Some c =>
         result ← invoke c question;
         mret {| answer := result.1; source_documents := result.2 |}
     end)
    (fun e =>
       mret {| answer := "Error processing query: " +:+ exn_str e;
               source_documents := [] |}).

Definition retrieve_context (query : string) (k : nat)
  : M (list Document) :=
  ensure_vector_store;;
  try_except
    (w ← get;
     match vector_store w with
     | None => raise (none_has_no "similarity_search")
     | Some r =>
         entries ← deref r;
         docs ← lift (similarity_search X entries query k);
         mret docs
     end)
    (fun e =>
       print ("Error retrieving context: " +:+ exn_str e);;
       mret []).

Definition get_context_for_agent (query : string) (max_length : Z)
  : M string :=
  docs ← retrieve_context query 4;
  match docs with
  | [] => mret no_context
  | _ :: _ =>
      let context_parts := context_loop max_length 1 docs [] 0 in
      mret (join nl context_parts)
  end.

End CarbonFootprintRAG.


(** [CarbonFootprintRAG(knowledge_base_path)] right after [__init__], in a
    file system with the given knowledge-base files and index
    directories. *)
Definition init (path : string) (files : list File)
    (indexes : gmap string Persisted) : World :=
  {| knowledge_base_path := path; vector_store := None; qa_chain := None;
     heap := []; kb_dir := files; index_dir := indexes; saves := [];
     stdout := [] |}.

(** A file that cannot be loaded, and the document a loadable file
    becomes. *)
Definition unreadable (f : File) : bool :=
  match file_text f with
  | Some _ => false
  | None => true
  end.

Definition as_document (f : File) : Document :=
  {| page_content := default "" (file_text f); metadata := file_path f |}.

(** The blocks of [docs], numbered from [i]. *)
Fixpoint blocks (i : nat) (docs : list Document) : list string :=
  match docs with
  | [] => []
  | doc :: rest => source_block i doc :: blocks (S i) rest
  end.

(** The sum of the [len] of the parts: the loop's [current_length]. *)
Fixpoint total_len (parts : list string) : Z :=
  match parts with
  | [] => 0
  | p :: ps => len p + total_len ps
  end.

(** ** The Chunker *)

(** Modelled from the spec: the text splitter.  [load_documents] delegates
    chunking to langchain's [RecursiveCharacterTextSplitter], whose code is
    not in the repository; this module follows section 4.1 of the
    specification instead.  A chunk is a contiguous piece of the document,
    kept with the offset it starts at.  Splitting prefers natural
    boundaries: the coarsest separator is tried first, a segment that still
    exceeds [chunk_size] is split again with the next finer separator, and
    below the finest separator the text is cut into overlapping fixed-size
    windows of [chunk_size] characters that share [chunk_overlap]
    characters.  An empty document gives no chunk.  Parameters that are not
    positive, or an overlap that is not below the size, are rejected. *)
Module Chunker.

Definition span : Type := nat * list ascii.

Definition span_end (s : span) : nat := (s.1 + length s.2)%nat.

(** Whether [text] starts with [sep]. *)
Fixpoint starts_with (sep text : list ascii) : bool :=
  match sep, text with
  | [], _ => true
  | _ :: _, [] => false
  | a :: sep', b :: text' => Ascii.eqb a b && starts_with sep' text'
  end.

(** The index of the first occurrence of [sep] in [text]. *)
Fixpoint find_sep (sep text : list ascii) : option nat :=
  match text with
  | [] => None
  | _ :: rest =>
      if starts_with sep text then Some 0%nat
      else S <$> find_sep sep rest
  end.

(** The segments of [text] between the occurrences of [sep], each with its
    offset; the separator itself belongs to no segment. *)
Fixpoint split_on (sep : list ascii) (fuel start : nat) (text : list ascii)
  : list span :=
  match fuel with
  | O => [(start, text)]
  | S fuel' =>
      match sep, find_sep sep text with
      | _ :: _, Some i =>
          (start, take i text)
            :: split_on sep fuel' (start + i + length sep)
                 (drop (i + length sep) text)
      | _, _ => [(start, text)]
      end
  end.

Section Split.

Variables chunk_size chunk_overlap : nat.

(** Character level: a window of [chunk_size] characters every
    [chunk_size - chunk_overlap] characters; the last one takes what is
    left. *)
Fixpoint windows (fuel start : nat) (text : list ascii) : list span :=
  match fuel with
  | O => []
  | S fuel' =>
      if (length text <=? chunk_size)%nat then [(start, text)]
      else (start, take chunk_size text)
             :: windows fuel' (start + (chunk_size - chunk_overlap))
                  (drop (chunk_size - chunk_overlap) text)
  end.

Fixpoint split_rec (seps : list (list ascii)) (start : nat)
    (text : list ascii) : list span :=
  if (length text <=? chunk_size)%nat then
    match text with
    | [] => []
    | _ :: _ => [(start, text)]
    end
  else
    match seps with
    | [] => windows (length text) start text
    | sep :: finer =>
        flat_map (fun seg => split_rec finer seg.1 seg.2)
                 (split_on sep (length text) start text)
    end.

Definition valid : bool :=
  ((0 <? chunk_overlap) && (chunk_overlap <? chunk_size))%nat.

End Split.

(** Paragraph, sentence and word boundaries, coarsest first. *)
Definition separators : list (list ascii) :=
  [ list_ascii_of_string (nl +:+ nl);
    list_ascii_of_string ". ";
    list_ascii_of_string " " ].

(** [split(document, chunk_size, chunk_overlap)], or [None] when the
    parameters are rejected. *)
Definition spans_of (chunk_size chunk_overlap : nat) (text : string)
  : list span :=
  split_rec chunk_size chunk_overlap separators 0 (list_ascii_of_string text).

Definition split (chunk_size chunk_overlap : nat) (text : string)
  : option (list span) :=
  if valid chunk_size chunk_overlap then
    Some (spans_of chunk_size chunk_overlap text)
  else None.

Definition chunk_text (s : span) : string := string_of_list_ascii s.2.

Definition split_text (chunk_size chunk_overlap : nat) (text : string)
  : list string :=
  match split chunk_size chunk_overlap text with
  | Some spans => map chunk_text spans
  | None => []
  end.

(** The invariant of the data model. [s] is the piece of [doc] that starts
    at its offset. *)
Definition at_offset (doc : list ascii) (s : span) : Prop :=
  take (length s.2) (drop s.1 doc) = s.2 /\ (span_end s <= length doc)%nat.

(** Segments that are pieces of [doc], each within [lo] and [hi] and
    starting where the one before it has ended, or later. *)
Fixpoint segments (doc : list ascii) (lo hi : nat) (segs : list span)
  : Prop :=
  match segs with
  | [] => True
  | seg :: rest =>
      at_offset doc seg /\ (lo <= seg.1)%nat /\ (span_end seg <= hi)%nat /\
      segments doc (span_end seg) hi rest
  end.

(** [b] comes after [a] in the document, and [a] reaches at most [overlap]
    characters into it. *)
Definition follows (overlap : nat) (a b : span) : Prop :=
  (a.1 <= b.1)%nat /\ (span_end a <= b.1 + overlap)%nat.

(** Each chunk of the list is followed, in that sense, by the next one. *)
Fixpoint overlaps_within (overlap : nat) (spans : list span) : Prop :=
  match spans with
  | [] => True
  | a :: rest =>
      match rest with
      | [] => True
      | b :: _ => follows overlap a b
      end /\ overlaps_within overlap rest
  end.

(** The spans leave no character between [lo] and [hi] out: each starts
    at or before the point reached so far. *)
Fixpoint covers (lo hi : nat) (spans : list span) : Prop :=
  match spans with
  | [] => (hi <= lo)%nat
  | s :: rest => (s.1 <= lo)%nat /\ covers (span_end s) hi rest
  end.

(** A list of spans that respects the invariant between offsets [lo] and
    [hi] of the document: pieces of the document, none above the size,
    each followed by all the later ones. *)
Definition good (chunk_size chunk_overlap : nat) (doc : list ascii)
    (lo hi : nat) (spans : list span) : Prop :=
  Forall (at_offset doc) spans
  /\ Forall (fun s => (length s.2 <= chunk_size)%nat) spans
  /\ Forall (fun s => (lo <= s.1 /\ span_end s <= hi)%nat) spans
  /\ StronglySorted (follows chunk_overlap) spans.

End Chunker.

(** The chunk of document [d] cut at span [s]. *)
Definition chunk_of (d : Document) (s : Chunker.span) : Document :=
  {| page_content := Chunker.chunk_text s; metadata := metadata d |}.

(** The libraries of [X] with the text splitter replaced by the Chunker. *)
Definition chunked (X : Externals) : Externals :=
  {| split_text := Chunker.split_text;
     embed_documents := embed_documents X;
     similarity_search := similarity_search X;
     generate := generate X |}.

(** ** Concrete scenarios *)

(** Libraries that never fail: the search returns the first [k] entries of
    the store and the model a fixed sentence. *)
Definition offline : Externals :=
  {| split_text := Chunker.split_text;
     embed_documents := fun _ => None;
     similarity_search := fun entries _ k => Ok (take k entries);
     generate := fun _ _ _ => Ok "Scope 1 covers direct emissions." |}.

Definition scope1_file : File :=
  {| file_path := "knowledge_base/ghg_protocol_scopes.txt";
     file_text :=
       Some "Scope 1 emissions are direct emissions from owned sources." |}.

Definition broken_file : File :=
  {| file_path := "knowledge_base/carbon_regulations.txt";
     file_text := None |}.

Definition scope1_doc : Document :=
  {| page_content :=
       "Scope 1 emissions are direct emissions from owned sources.";
     metadata := "knowledge_base/ghg_protocol_scopes.txt" |}.

Definition scope2_doc : Document :=
  {| page_content :=
       "Scope 2 emissions are indirect emissions from purchased energy.";
     metadata := "knowledge_base/ghg_protocol_scopes.txt" |}.

Definition empty_doc : Document := {| page_content := ""; metadata := "" |}.

(** A new instance over an empty knowledge base with no saved index. *)
Definition empty_kb : World := init "knowledge_base" [] ∅.

(** A new instance whose saved index does not deserialise. *)
Definition corrupt_index : exn :=
  Exception "RuntimeError" "Error in faiss::read_index: read error".

Definition corrupt_kb : World :=
  init "knowledge_base" [scope1_file]
       {[ "knowledge_base/faiss_index" := Unreadable corrupt_index ]}.

(** A new instance with one good and one undecodable file. *)
Definition partial_kb : World :=
  init "knowledge_base" [scope1_file; broken_file] ∅.

(** A new instance with one good file and no saved index. *)
Definition unbuilt_kb : World := init "knowledge_base" [scope1_file] ∅.

(** An instance whose store is loaded and holds the two scope documents. *)
Definition ready_kb : World :=
  {| knowledge_base_path := "knowledge_base"; vector_store := Some 0%nat;
     qa_chain := None; heap := [[scope1_doc; scope2_doc]];
     kb_dir := [scope1_file];
     index_dir :=
       {[ "knowledge_base/faiss_index" := Snapshot [scope1_doc; scope2_doc] ]};
     saves := []; stdout := [] |}.

(** ** What [query] answers *)

(** The dictionary built by the [except] branch of [query]. *)
Definition error_answer (e : exn) : Answer :=
  {| answer := "Error processing query: " +:+ exn_str e;
     source_documents := [] |}.

(** The dictionary [query] returns when chain [c] runs over a store that
    holds [entries]: the model's text and the retrieved documents, or the
    error answer when the search or the model raises. *)
Definition chain_answer (X : Externals) (c : Chain)
    (entries : list Document) (question : string) : Answer :=
  match similarity_search X entries question (chain_k c) with
  | Err e => error_answer e
  | Ok docs =>
      match generate X (chain_prompt c) docs question with
      | Err e => error_answer e
      | Ok text => {| answer := text; source_documents := docs |}
      end
  end.

(** The chain [setup_qa_chain] builds over the store object [r]. *)
Definition qa_chain_over (r : nat) : Chain :=
  {| chain_prompt := prompt_template;
     chain_store := r;
     chain_k := 4;
     chain_return_source_documents := true |}.

(** What [load_documents] returns in world [w]. *)
Definition loaded_chunks (X : Externals) (w : World) : list Document :=
  match DirectoryLoader_load false (kb_dir w) with
  | Ok documents => split_documents X 1000 200 documents
  | Err _ => []
  end.

(** Several lines printed one after the other. *)
Definition emit_all (lines : list string) (w : World) : World :=
  fold_left (fun w' line => emit line w') lines w.

(** ** The set-up script [setup_rag.py] *)

(** [s * n]. *)
Fixpoint str_times (s : string) (n : nat) : string :=
  match n with
  | O => ""
  | S n' => s +:+ str_times s n'
  end.

(** [s.lower()] on ASCII text. *)
Definition lower_ascii (c : ascii) : ascii :=
  let n := nat_of_ascii c in
  if ((65 <=? n) && (n <=? 90))%nat then ascii_of_nat (n + 32) else c.

Fixpoint lower (s : string) : string :=
  match s with
  | EmptyString => EmptyString
  | String c rest => String (lower_ascii c) (lower rest)
  end.

(** [CarbonFootprintRAG(path)]: a new instance, with no store and no chain.
    Creating the directory and the two model clients is taken to
    succeed. *)
Definition construct (path : string) : M unit :=
  modify (fun w =>
    {| knowledge_base_path := path; vector_store := None; qa_chain := None;
       heap := heap w; kb_dir := kb_dir w; index_dir := index_dir w;
       saves := saves w; stdout := stdout w |}).

(** [for x in xs: body(x)]. *)
Fixpoint for_each {A} (xs : list A) (body : A -> M unit) : M unit :=
  match xs with
  | [] => mret tt
  | x :: rest => body x;; for_each rest body
  end.

Definition kb_files : list string :=
  [ "ghg_protocol_scopes.txt";
    "carbon_regulations.txt";
    "emission_reduction_strategies.txt";
    "carbon_offset_markets.txt" ].

(** The text shown for the test answer:
    [answer[:300] + "..." if len(answer) > 300 else answer]. *)
Definition preview (a : string) : string :=
  if (300 <? String.length a)%nat then substring 0 300 a +:+ "..." else a.

Definition banner : list string :=
  [ str_times "=" 60;
    "YourCarbonFootprint - RAG System Setup";
    str_times "=" 60;
    "" ].

Section SetupRag.

Context (X : Externals).

(** [os.path.exists], and the line [input] reads ([None] at end of
    input). *)
Variable path_exists : string -> bool.
Variable typed : option string.

(** [input(prompt)]: the prompt goes to the output, then a line is read. *)
Definition input (prompt : string) : M string :=
  print prompt;;
  match typed with
  | Some line => mret line
  | None => raise (Exception "EOFError" "EOF when reading a line")
  end.

(** The files of [kb_files] that are not in the knowledge base. *)
Definition missing_files : list string :=
  List.filter
    (fun file => negb (path_exists (os_path_join "knowledge_base" file)))
    kb_files.

(** [main] from "Running test query..." on. *)
Definition test_query : M unit :=
  print "Running test query...";;
  try_except
    (result ← query X "What is Scope 1 emissions?";
     print "";;
     print "Test Query: 'What is Scope 1 emissions?'";;
     print (str_times "-" 60);;
     print (preview (answer result));;
     print (str_times "-" 60);;
     print "";;
     print "[OK] RAG system is working correctly!")
    (fun e =>
       print ("[WARNING] Test query failed: " +:+ exn_str e);;
       print "The vector store was created, but there may be an issue with the LLM.";;
       print "Please check your GROQ_API_KEY in the .env file.");;
  print "".

(** [main] from the line that reports the files as found on. *)
Definition build_and_test : M unit :=
  print "[OK] Knowledge base files found";;
  print "";;
  print "Initializing RAG system...";;
  construct "knowledge_base";;
  print "Loading documents from knowledge_base/...";;
  documents ← load_documents X;
  match documents with
  | [] =>
      print "[ERROR] No documents loaded!";;
      print "Please check that the knowledge base files contain text content."
  | _ :: _ =>
      print ("[OK] Loaded " +:+ str_nat (length documents)
             +:+ " document chunks");;
      print "";;
      print "Creating FAISS vector store...";;
      print "(This may take a minute - downloading embedding model if needed)";;
      create_vector_store X (Some documents);;
      print "";;
      print (str_times "=" 60);;
      print "[SUCCESS] RAG System Setup Complete!";;
      print (str_times "=" 60);;
      print "";;
      print "The vector store has been created at: knowledge_base/faiss_index/";;
      print "";;
      print "You can now run the application with: streamlit run app.py";;
      print "";;
      test_query
  end.

Definition main : M unit :=
  print (str_times "=" 60);;
  print "YourCarbonFootprint - RAG System Setup";;
  print (str_times "=" 60);;
  print "";;
  if negb (path_exists "knowledge_base") then
    print "[ERROR] knowledge_base directory not found!";;
    print "Please ensure the knowledge base documents are in the 'knowledge_base' folder."
  else
    match missing_files with
    | [] => build_and_test
    | _ :: _ =>
        print "[WARNING] Some knowledge base files are missing:";;
        for_each missing_files (fun file => print ("   - " +:+ file));;
        print "";;
        response ← input "Continue anyway? (y/n): ";
        if negb (String.eqb (lower response) "y") then
          print "Setup cancelled."
        else build_and_test
    end.

End SetupRag.


(** What [main] prints while it checks: the banner and, for missing files,
    the warning, the file names and the question. *)
Definition preamble (path_exists : string -> bool) : list string :=
  banner
  ++ match missing_files path_exists with
     | [] => []
     | _ :: _ =>
         "[WARNING] Some knowledge base files are missing:"
           :: map (fun file => "   - " +:+ file) (missing_files path_exists)
           ++ [""; "Continue anyway? (y/n): "]
     end.

(** The question of the test query. *)
Definition test_question : string := "What is Scope 1 emissions?".

(** An instance that has answered before: store loaded, chain set up over
    it. *)
Definition serving_kb : World :=
  {| knowledge_base_path := "knowledge_base"; vector_store := Some 0%nat;
     qa_chain := Some (qa_chain_over 0); heap := [[scope1_doc; scope2_doc]];
     kb_dir := [scope1_file];
     index_dir :=
       {[ "knowledge_base/faiss_index" := Snapshot [scope1_doc; scope2_doc] ]};
     saves := []; stdout := [] |}.

(** Libraries whose language model is out of reach. *)
Definition model_down : Externals :=
  {| split_text := Chunker.split_text;
     embed_documents := fun _ => None;
     similarity_search := fun entries _ k => Ok (take k entries);
     generate := fun _ _ _ =>
       Err (Exception "APIConnectionError" "Connection error.") |}.

(** Libraries whose similarity search fails. *)
Definition search_down : Externals :=
  {| split_text := Chunker.split_text;
     embed_documents := fun _ => None;
     similarity_search := fun _ _ _ =>
       Err (Exception "RuntimeError" "embedding model unavailable");
     generate := fun _ _ _ => Ok "Scope 1 covers direct emissions." |}.

(** ** Reasoning about method bodies *)

Ltac run :=
  cbv [mbind M_bind mret M_ret bind ret raise try_except get modify print
       lift alloc deref save_local].

Lemma len_nonneg s : 0 <= len s.
Proof. unfold len. lia. Qed.

Lemma total_len_nonneg parts : 0 <= total_len parts.
Proof.
  induction parts as [|p ps IH]; simpl; [lia|].
  pose proof (len_nonneg p). lia.
Qed.

Lemma length_blocks i docs : length (blocks i docs) = length docs.
Proof. revert i. induction docs as [|d ds IH]; intros i; simpl; auto. Qed.

Lemma len_append s t : len (s +:+ t) = len s + len t.
Proof.
  unfold len. induction s as [|c s IH]; simpl String.length.
  - reflexivity.
  - change (String c s +:+ t) with (String c (s +:+ t)).
    simpl String.length. lia.
Qed.

(** [len] of a joined list: the parts and one separator between each two. *)
Lemma len_join sep parts :
  len (join sep parts)
  = total_len parts + len sep * Z.of_nat (Nat.pred (length parts)).
Proof.
  unfold join. induction parts as [|p ps IH].
  - simpl. unfold len. simpl. lia.
  - destruct ps as [|q qs].
    + simpl. lia.
    + change (String.concat sep (p :: q :: qs))
        with (p +:+ sep +:+ String.concat sep (q :: qs)).
      rewrite !len_append, IH.
      cbn [total_len length Nat.pred]. lia.
Qed.

(** What the loop computes: it appends a prefix of the remaining blocks;
    every block of the prefix kept the running total within [max_length];
    the block after the prefix, if any, would have passed it. *)
Lemma context_loop_prefix max_length docs : forall i parts cur,
  exists n : nat,
    (n <= length docs)%nat /\
    context_loop max_length i docs parts cur
      = parts ++ take n (blocks i docs) /\
    (forall j : nat, (j < n)%nat ->
       cur + total_len (take (S j) (blocks i docs)) <= max_length) /\
    ((n < length docs)%nat ->
       cur + total_len (take (S n) (blocks i docs)) > max_length).
Proof.
  induction docs as [|d ds IH]; intros i parts cur.
  - exists 0%nat. simpl. rewrite app_nil_r.
    repeat split; auto; intros; lia.
  - cbn [context_loop].
    destruct (Z.gtb_spec (cur + len (source_block i d)) max_length) as [E|E].
    + exists 0%nat. cbn [firstn blocks length]. rewrite app_nil_r.
      repeat split; auto; try lia.
      intros _. rewrite firstn_O. cbn [total_len]. lia.
    + destruct (IH (S i) (parts ++ [source_block i d])
                   (cur + len (source_block i d)))
        as (n & Hn & Heq & Hin & Hout).
      exists (S n). cbn [firstn blocks length].
      repeat split.
      * lia.
      * rewrite Heq, <- app_assoc. reflexivity.
      * intros j Hj. destruct j as [|j].
        -- rewrite firstn_O. cbn [total_len]. lia.
        -- cbn [firstn total_len] in *.
           specialize (Hin j ltac:(lia)). cbn [take] in Hin. lia.
      * intros Hlt. specialize (Hout ltac:(lia)).
        cbn [firstn total_len] in *. lia.
Qed.

(** ** [get_context_for_agent] *)

Lemma get_context_for_agent_eq X query max_length w :
  get_context_for_agent X query max_length w
  = match retrieve_context X query 4 w with
    | Returns [] w' => Returns no_context w'
    | Returns (d :: rest) w' =>
        Returns (join nl (context_loop max_length 1 (d :: rest) [] 0)) w'
    | Raises e w' => Raises e w'
    end.
Proof.
  unfold get_context_for_agent. run.
  destruct (retrieve_context X query 4 w) as [[|d rest] w'|e w']; reflexivity.
Qed.

(** C7. When retrieval yields no document, [get_context_for_agent] returns
    the fixed sentence "No relevant context found in knowledge base.",
    which is not the empty string. *)
Theorem no_documents_gives_sentinel X query max_length w w' :
  retrieve_context X query 4 w = Returns [] w' ->
  get_context_for_agent X query max_length w = Returns no_context w'
  /\ no_context <> "".
Proof.
  intros Hret. rewrite get_context_for_agent_eq, Hret.
  split; [reflexivity | discriminate].
Qed.

Lemma no_documents_gives_sentinel_witness :
  get_context_for_agent offline "What is Scope 1?" 2000 empty_kb
  = Returns no_context
      (world_of (retrieve_context offline "What is Scope 1?" 4 empty_kb))
  /\ no_context <> "".
Proof.
  apply (no_documents_gives_sentinel offline "What is Scope 1?" 2000 empty_kb).
  vm_compute. reflexivity.
Defined.

(** C9. When retrieval yields documents but the first formatted block
    ("[Source 1]: ", the chunk text, a line feed) is already longer than
    [max_length], [get_context_for_agent] returns the empty string and not
    the "no relevant context" sentence. *)
Theorem oversized_first_block_gives_empty X query max_length w d rest w' :
  retrieve_context X query 4 w = Returns (d :: rest) w' ->
  len (source_block 1 d) > max_length ->
  get_context_for_agent X query max_length w = Returns "" w'
  /\ "" <> no_context.
Proof.
  intros Hret Hlong. rewrite get_context_for_agent_eq, Hret.
  split; [|discriminate].
  cbn [context_loop].
  destruct (Z.gtb_spec (0 + len (source_block 1 d)) max_length) as [_|Hle].
  - reflexivity.
  - lia.
Qed.

Lemma oversized_first_block_gives_empty_witness :
  get_context_for_agent offline "What is Scope 1?" 50 ready_kb
  = Returns "" ready_kb
  /\ "" <> no_context.
Proof.
  apply (oversized_first_block_gives_empty
           offline "What is Scope 1?" 50 ready_kb scope1_doc [scope2_doc]).
  - vm_compute. reflexivity.
  - vm_compute. reflexivity.
Defined.

(** The context is the first [n] blocks, whole and in rank order, joined
    by line feeds.  The line feeds are not part of the running total: as
    long as there are no more of them than a header has characters, the
    string is at most one header longer than [max_length]. *)
Lemma context_of_few_documents X query max_length w docs w' :
  retrieve_context X query 4 w = Returns docs w' ->
  docs <> [] ->
  0 <= max_length ->
  Z.of_nat (length docs) <= len (source_header 1) + 1 ->
  exists n : nat,
    (n <= length docs)%nat /\
    get_context_for_agent X query max_length w
      = Returns (join nl (take n (blocks 1 docs))) w' /\
    (forall j : nat, (j < n)%nat ->
       total_len (take (S j) (blocks 1 docs)) <= max_length) /\
    ((n < length docs)%nat ->
       total_len (take (S n) (blocks 1 docs)) > max_length) /\
    len (join nl (take n (blocks 1 docs)))
      <= max_length + len (source_header 1).
Proof.
  intros Hret Hne Hmax Hlen.
  destruct (context_loop_prefix max_length docs 1 [] 0)
    as (n & Hn & Heq & Hin & Hout).
  exists n. split; [exact Hn|]. split; [|split; [|split]].
  - rewrite get_context_for_agent_eq, Hret.
    destruct docs as [|d rest]; [congruence|].
    rewrite Heq. reflexivity.
  - intros j Hj. specialize (Hin j Hj). lia.
  - intros Hlt. specialize (Hout Hlt). lia.
  - rewrite len_join.
    assert (Hlenn : length (take n (blocks 1 docs)) = n)
      by (rewrite length_take, length_blocks; lia).
    rewrite Hlenn.
    change (len nl) with 1.
    destruct n as [|n].
    + rewrite firstn_O. cbn [total_len Nat.pred].
      pose proof (len_nonneg (source_header 1)). lia.
    + specialize (Hin n ltac:(lia)). cbn [Nat.pred]. lia.
Qed.

(** ** Loading documents *)

(** The directory loader stops at the first file that fails. *)
Lemma DirectoryLoader_load_strict files :
  DirectoryLoader_load false files
  = match find unreadable files with
    | None => Ok (map as_document files)
    | Some f =>
        Err (Exception "RuntimeError" ("Error loading " +:+ file_path f))
    end.
Proof.
  induction files as [|f rest IH]; [reflexivity|].
  cbn [DirectoryLoader_load find map].
  unfold TextLoader_load, unreadable at 1, as_document at 1.
  destruct (file_text f) as [text|]; [|reflexivity].
  rewrite IH. destruct (find unreadable rest); reflexivity.
Qed.

Lemma load_documents_eq X w :
  load_documents X w
  = match DirectoryLoader_load false (kb_dir w) with
    | Ok documents => Returns (split_documents X 1000 200 documents) w
    | Err e =>
        Returns [] (emit ("Error loading documents: " +:+ exn_str e) w)
    end.
Proof.
  unfold load_documents. run.
  destruct (DirectoryLoader_load false (kb_dir w)); reflexivity.
Qed.

(** [load_documents] always returns, and touches nothing but the output. *)
Lemma load_documents_frame X w :
  exists documents lines,
    load_documents X w
    = Returns documents
        {| knowledge_base_path := knowledge_base_path w;
           vector_store := vector_store w; qa_chain := qa_chain w;
           heap := heap w; kb_dir := kb_dir w; index_dir := index_dir w;
           saves := saves w; stdout := stdout w ++ lines |}.
Proof.
  rewrite load_documents_eq.
  destruct (DirectoryLoader_load false (kb_dir w)) as [documents|e].
  - exists (split_documents X 1000 200 documents), [].
    rewrite app_nil_r. destruct w; reflexivity.
  - eexists [], [_]. reflexivity.
Qed.

(** One undecodable file makes [load_documents] drop the whole corpus:
    the good file alone yields a chunk, the two files together none. *)
Lemma partial_corpus_is_dropped :
  TextLoader_load scope1_file = Ok scope1_doc
  /\ TextLoader_load broken_file
     = Err (Exception "RuntimeError"
              "Error loading knowledge_base/carbon_regulations.txt")
  /\ split_documents offline 1000 200 [scope1_doc] = [scope1_doc]
  /\ load_documents offline partial_kb
     = Returns []
         (emit "Error loading documents: Error loading knowledge_base/carbon_regulations.txt"
               partial_kb).
Proof.
  split; [reflexivity|]. split; [reflexivity|].
  split; vm_compute; reflexivity.
Qed.

(** C5. [load_documents] never raises.  When every file of the knowledge
    base loads, it returns the chunks of all of them, in order, and prints
    nothing; when some file cannot be read or decoded, it prints the error
    of the first such file and returns the empty list. *)
Theorem load_documents_all_or_nothing X w :
  load_documents X w
  = match find unreadable (kb_dir w) with
    | None =>
        Returns (split_documents X 1000 200 (map as_document (kb_dir w))) w
    | Some f =>
        Returns []
          (emit ("Error loading documents: Error loading " +:+ file_path f)
                w)
    end.
Proof.
  rewrite load_documents_eq, DirectoryLoader_load_strict.
  destruct (find unreadable (kb_dir w)); reflexivity.
Qed.

(** ** Building and loading the vector store *)

Lemma create_vector_store_eq X given w :
  create_vector_store X given w
  = match (match given with
           | None => load_documents X w
           | Some documents => Returns documents w
           end) with
    | Raises e w1 => Raises e w1
    | Returns [] w1 =>
        Returns tt (emit "No documents found to create vector store." w1)
    | Returns (d :: ds) w1 =>
        match embed_documents X (d :: ds) with
        | Some e => Raises e w1
        | None =>
            let w2 := set_vector_store (Some (length (heap w1)))
                        (set_heap (heap w1 ++ [d :: ds]) w1) in
            Returns tt
              (emit ("Vector store created with "
                     +:+ str_nat (length (d :: ds)) +:+ " document chunks.")
                 (write_index (faiss_index_path w2)
                    (Snapshot (default [] (heap w2 !! length (heap w1))))
                    w2))
        end
    end.
Proof.
  unfold create_vector_store, FAISS_from_documents. run.
  destruct given as [documents|].
  - destruct documents as [|d ds]; [reflexivity|].
    destruct (embed_documents X (d :: ds)); reflexivity.
  - destruct (load_documents X w) as [[|d ds] w1|e w1]; try reflexivity.
    destruct (embed_documents X (d :: ds)); reflexivity.
Qed.

(** With an empty list [create_vector_store] returns as if nothing were
    wrong. *)
Lemma empty_build_is_accepted :
  create_vector_store offline (Some []) empty_kb
  = Returns tt (emit "No documents found to create vector store." empty_kb)
  /\ ~ (exists e w', create_vector_store offline (Some []) empty_kb
                     = Raises e w').
Proof.
  split; [reflexivity|].
  intros (e & w' & H). discriminate H.
Qed.

(** C2. When the document list, given or loaded, is empty,
    [create_vector_store] raises nothing: it prints "No documents found to
    create vector store." and returns, and the store, the store objects,
    the saved indexes and the record of saves are what they were. *)
Theorem create_vector_store_empty X given w w1 :
  match given with
  | None => load_documents X w
  | Some documents => Returns documents w
  end = Returns [] w1 ->
  create_vector_store X given w
  = Returns tt (emit "No documents found to create vector store." w1)
  /\ vector_store w1 = vector_store w
  /\ heap w1 = heap w
  /\ index_dir w1 = index_dir w
  /\ saves w1 = saves w.
Proof.
  intros Hdocs. rewrite create_vector_store_eq, Hdocs.
  split; [reflexivity|].
  destruct given as [documents|].
  - inversion Hdocs; subst. auto.
  - destruct (load_documents_frame X w) as (documents & lines & Hframe).
    rewrite Hframe in Hdocs. inversion Hdocs; subst. cbn. auto.
Qed.

Lemma create_vector_store_empty_witness :
  create_vector_store offline None empty_kb
  = Returns tt (emit "No documents found to create vector store." empty_kb)
  /\ vector_store empty_kb = vector_store empty_kb
  /\ heap empty_kb = heap empty_kb
  /\ index_dir empty_kb = index_dir empty_kb
  /\ saves empty_kb = saves empty_kb.
Proof.
  apply (create_vector_store_empty offline None empty_kb empty_kb).
  vm_compute. reflexivity.
Defined.

Lemma load_vector_store_eq X w :
  load_vector_store X w
  = match index_dir w !! faiss_index_path w with
    | Some (Snapshot entries) =>
        Returns tt
          (emit "Vector store loaded successfully."
             (set_vector_store (Some (length (heap w)))
                (set_heap (heap w ++ [entries]) w)))
    | Some (Unreadable why) => Raises why w
    | None =>
        create_vector_store X None
          (emit "No existing vector store found. Creating new one..." w)
    end.
Proof.
  unfold load_vector_store. run.
  destruct (index_dir w !! faiss_index_path w) as [[entries|why]|];
    reflexivity.
Qed.

(** C6. [load_vector_store] looks at <knowledge_base>/faiss_index.  A
    snapshot found there is loaded.  When nothing is there, the index is
    built from the documents [load_documents] reads in the knowledge base,
    kept as the store and saved at that path (or, with no documents, left
    unbuilt).  Data that is there but does not deserialise makes the call
    raise the loader's error: nothing is rebuilt, and the instance and the
    disk stay as they were. *)
Theorem load_vector_store_policy X w :
  load_vector_store X w
  = match index_dir w !! faiss_index_path w with
    | Some (Snapshot entries) =>
        Returns tt
          (emit "Vector store loaded successfully."
             (set_vector_store (Some (length (heap w)))
                (set_heap (heap w ++ [entries]) w)))
    | Some (Unreadable why) => Raises why w
    | None =>
        match load_documents X
                (emit "No existing vector store found. Creating new one..." w)
        with
        | Raises e w1 => Raises e w1
        | Returns [] w1 =>
            Returns tt (emit "No documents found to create vector store." w1)
        | Returns (d :: ds) w1 =>
            match embed_documents X (d :: ds) with
            | Some e => Raises e w1
            | None =>
                let w2 := set_vector_store (Some (length (heap w1)))
                            (set_heap (heap w1 ++ [d :: ds]) w1) in
                Returns tt
                  (emit ("Vector store created with "
                         +:+ str_nat (length (d :: ds))
                         +:+ " document chunks.")
                     (write_index (faiss_index_path w2) (Snapshot (d :: ds))
                        w2))
            end
        end
    end.
Proof.
  rewrite load_vector_store_eq.
  destruct (index_dir w !! faiss_index_path w) as [[entries|why]|];
    try reflexivity.
  rewrite create_vector_store_eq.
  destruct (load_documents X _) as [[|d ds] w1|e w1]; try reflexivity.
  destruct (embed_documents X (d :: ds)); [reflexivity|].
  cbn zeta. do 3 f_equal.
  unfold set_vector_store, set_heap; cbn [heap].
  rewrite lookup_app_r by lia.
  rewrite Nat.sub_diag. reflexivity.
Qed.

(** ** Lazy initialisation *)

Lemma ensure_vector_store_eq X w :
  ensure_vector_store X w
  = match vector_store w with
    | None => load_vector_store X w
    | Some _ => Returns tt w
    end.
Proof.
  unfold ensure_vector_store. run.
  destruct (vector_store w); reflexivity.
Qed.

(** Once the store question is settled, [retrieve_context] cannot raise:
    only the lazy load in front of its [try] can. *)
Lemma retrieve_context_eq X query k w :
  retrieve_context X query k w
  = match ensure_vector_store X w with
    | Raises e w1 => Raises e w1
    | Returns _ w1 =>
        match vector_store w1 with
        | None =>
            Returns []
              (emit ("Error retrieving context: "
                     +:+ exn_str (none_has_no "similarity_search")) w1)
        | Some r =>
            match similarity_search X (default [] (heap w1 !! r)) query k with
            | Ok docs => Returns docs w1
            | Err e =>
                Returns []
                  (emit ("Error retrieving context: " +:+ exn_str e) w1)
            end
        end
    end.
Proof.
  unfold retrieve_context. run.
  destruct (ensure_vector_store X w) as [[] w1|e w1]; [|reflexivity].
  destruct (vector_store w1) as [r|]; [|reflexivity].
  destruct (similarity_search X _ query k); reflexivity.
Qed.

(** What [retrieve_context] returns is what the search returned, or
    nothing: with a search that keeps to [k], at most [k] documents. *)
Lemma retrieve_context_at_most_k X query k w docs w' :
  honours_k X ->
  retrieve_context X query k w = Returns docs w' ->
  (length docs <= k)%nat.
Proof.
  intros Hk Hret. rewrite retrieve_context_eq in Hret.
  destruct (ensure_vector_store X w) as [[] w1|e w1]; [|discriminate].
  destruct (vector_store w1) as [r|].
  - destruct (similarity_search X _ query k) as [found|e] eqn:Hsearch;
      inversion Hret; subst; [|cbn [length]; lia].
    apply (Hk _ _ _ _ Hsearch).
  - inversion Hret; subst. cbn [length]. lia.
Qed.

Lemma offline_honours_k : honours_k offline.
Proof.
  intros entries query k docs Hsearch. cbn in Hsearch.
  inversion Hsearch; subst. rewrite length_take. lia.
Qed.

(** C3. For every non-empty retrieval result and every [max_length] (a
    length, so not negative), the context [get_context_for_agent] returns
    is the first [n] source blocks, whole and in rank order, joined by line
    feeds: each of them kept the running total within [max_length], the
    block after them (if any) would have passed it, no block is cut, and
    the string is at most one source-block header longer than
    [max_length].  The retrieval result is what the search, asked for four
    documents, returned. *)
Theorem context_is_greedy_and_bounded X query max_length w docs w' :
  honours_k X ->
  retrieve_context X query 4 w = Returns docs w' ->
  docs <> [] ->
  0 <= max_length ->
  exists n : nat,
    (n <= length docs)%nat /\
    get_context_for_agent X query max_length w
      = Returns (join nl (take n (blocks 1 docs))) w' /\
    (forall j : nat, (j < n)%nat ->
       total_len (take (S j) (blocks 1 docs)) <= max_length) /\
    ((n < length docs)%nat ->
       total_len (take (S n) (blocks 1 docs)) > max_length) /\
    len (join nl (take n (blocks 1 docs)))
      <= max_length + len (source_header 1).
Proof.
  intros Hk Hret Hne Hmax.
  apply (context_of_few_documents X query max_length w docs w'); auto.
  pose proof (retrieve_context_at_most_k X query 4 w docs w' Hk Hret).
  change (len (source_header 1)) with 12. lia.
Qed.

Lemma context_is_greedy_and_bounded_witness :
  exists n : nat,
    (n <= 2)%nat /\
    get_context_for_agent offline "What is Scope 1?" 100 ready_kb
      = Returns (join nl (take n (blocks 1 [scope1_doc; scope2_doc])))
                ready_kb /\
    (forall j : nat, (j < n)%nat ->
       total_len (take (S j) (blocks 1 [scope1_doc; scope2_doc])) <= 100) /\
    ((n < 2)%nat ->
       total_len (take (S n) (blocks 1 [scope1_doc; scope2_doc])) > 100) /\
    len (join nl (take n (blocks 1 [scope1_doc; scope2_doc])))
      <= 100 + len (source_header 1).
Proof.
  apply (context_is_greedy_and_bounded
           offline "What is Scope 1?" 100 ready_kb
           [scope1_doc; scope2_doc] ready_kb).
  - exact offline_honours_k.
  - vm_compute. reflexivity.
  - discriminate.
  - lia.
Defined.

(** C1. A saved index that does not deserialise makes
    [get_context_for_agent] raise: the lazy [load_vector_store] of
    [retrieve_context] runs before the [try], so the loader's error
    reaches the caller instead of the "no relevant context" sentence. *)
Theorem context_retrieval_propagates_load_failure
    X query max_length w why :
  vector_store w = None ->
  index_dir w !! faiss_index_path w = Some (Unreadable why) ->
  get_context_for_agent X query max_length w = Raises why w.
Proof.
  intros Hnone Hbad.
  rewrite get_context_for_agent_eq, retrieve_context_eq,
    ensure_vector_store_eq, Hnone, load_vector_store_eq, Hbad.
  reflexivity.
Qed.

Lemma context_retrieval_propagates_load_failure_witness :
  get_context_for_agent offline "What is Scope 1 emissions?" 2000 corrupt_kb
  = Raises corrupt_index corrupt_kb.
Proof.
  apply context_retrieval_propagates_load_failure.
  - reflexivity.
  - vm_compute. reflexivity.
Defined.

(** ** Asking questions *)

Lemma setup_qa_chain_eq X w :
  setup_qa_chain X w
  = match ensure_vector_store X w with
    | Raises e w1 => Raises e w1
    | Returns _ w1 =>
        match vector_store w1 with
        | None => Raises (none_has_no "as_retriever") w1
        | Some r =>
            Returns tt
              (set_qa_chain
                 (Some {| chain_prompt := prompt_template;
                          chain_store := r;
                          chain_k := 4;
                          chain_return_source_documents := true |}) w1)
        end
    end.
Proof.
  unfold setup_qa_chain. run.
  destruct (ensure_vector_store X w) as [[] w1|e w1]; [|reflexivity].
  destruct (vector_store w1); reflexivity.
Qed.

(** C4. On a new instance whose knowledge base holds no document and has
    no saved index, [query] raises: [setup_qa_chain] runs before the [try],
    the build leaves the store at [None], and taking its retriever fails
    with an [AttributeError] that reaches the caller. *)
Theorem query_raises_on_empty_knowledge_base X question w :
  qa_chain w = None ->
  vector_store w = None ->
  index_dir w !! faiss_index_path w = None ->
  kb_dir w = [] ->
  query X question w
  = Raises (none_has_no "as_retriever")
      (emit "No documents found to create vector store."
         (emit "No existing vector store found. Creating new one..." w)).
Proof.
  intros Hchain Hstore Hindex Hfiles.
  unfold query. run. rewrite Hchain.
  rewrite setup_qa_chain_eq, ensure_vector_store_eq, Hstore,
    load_vector_store_eq, Hindex, create_vector_store_eq, load_documents_eq.
  cbn [kb_dir emit]. rewrite Hfiles. cbn.
  rewrite Hstore. reflexivity.
Qed.

Lemma query_raises_on_empty_knowledge_base_witness :
  query offline "What is Scope 1 emissions?" empty_kb
  = Raises (none_has_no "as_retriever")
      (emit "No documents found to create vector store."
         (emit "No existing vector store found. Creating new one..."
               empty_kb)).
Proof.
  apply query_raises_on_empty_knowledge_base; reflexivity.
Defined.

(** ** Adding documents *)

Lemma add_documents_ready X documents w r :
  vector_store w = Some r ->
  add_documents X documents w
  = match documents with
    | [] => Returns tt w
    | _ :: _ =>
        match embed_documents X documents with
        | Some e => Raises e w
        | None =>
            let w1 :=
              set_heap (alter (fun s => s ++ documents) r (heap w)) w in
            Returns tt
              (emit ("Added " +:+ str_nat (length documents)
                     +:+ " documents to vector store.")
                 (write_index (faiss_index_path w)
                    (Snapshot (default [] (heap w1 !! r))) w1))
        end
    end.
Proof.
  intros Hready. unfold add_documents. run.
  rewrite ensure_vector_store_eq, Hready.
  destruct documents as [|d ds]; [reflexivity|].
  rewrite Hready. unfold store_add_documents.
  destruct (embed_documents X (d :: ds)); reflexivity.
Qed.

(** On an instance whose store is not loaded yet, [add_documents([])]
    builds the store from the knowledge base and writes the index. *)
Lemma empty_add_builds_and_saves :
  vector_store unbuilt_kb = None
  /\ saves unbuilt_kb = []
  /\ index_dir unbuilt_kb !! "knowledge_base/faiss_index" = None
  /\ returned (add_documents offline [] unbuilt_kb) = true
  /\ vector_store (world_of (add_documents offline [] unbuilt_kb))
     = Some 0%nat
  /\ saves (world_of (add_documents offline [] unbuilt_kb))
     = ["knowledge_base/faiss_index"]
  /\ index_dir (world_of (add_documents offline [] unbuilt_kb))
       !! "knowledge_base/faiss_index"
     = Some (Snapshot [scope1_doc]).
Proof.
  repeat (split; [vm_compute; reflexivity|]).
  vm_compute. reflexivity.
Qed.

(** C10. On an instance whose store is loaded, [add_documents([])] changes
    nothing: not the instance, not the store object, not the disk.  For any
    list, the index is saved (once, at <knowledge_base>/faiss_index) when
    the list is non-empty and the call returns, and not otherwise. *)
Theorem add_documents_saves_iff_nonempty X documents w r :
  vector_store w = Some r ->
  add_documents X [] w = Returns tt w
  /\ (documents <> [] /\ returned (add_documents X documents w) = true ->
      saves (world_of (add_documents X documents w))
      = saves w ++ [faiss_index_path w])
  /\ (documents = [] \/ returned (add_documents X documents w) = false ->
      world_of (add_documents X documents w) = w).
Proof.
  intros Hready.
  split; [apply (add_documents_ready X [] w r Hready)|].
  rewrite (add_documents_ready X documents w r Hready).
  destruct documents as [|d ds].
  - split; [intros [Hne _]; congruence | reflexivity].
  - destruct (embed_documents X (d :: ds)) as [e|]; cbn.
    + split; [intros [_ Hret]; discriminate | reflexivity].
    + split; [reflexivity | intros [H|H]; discriminate].
Qed.

Lemma add_documents_saves_iff_nonempty_witness :
  add_documents offline [] ready_kb = Returns tt ready_kb
  /\ ([scope2_doc] <> [] /\
      returned (add_documents offline [scope2_doc] ready_kb) = true ->
      saves (world_of (add_documents offline [scope2_doc] ready_kb))
      = saves ready_kb ++ [faiss_index_path ready_kb])
  /\ ([scope2_doc] = [] \/
      returned (add_documents offline [scope2_doc] ready_kb) = false ->
      world_of (add_documents offline [scope2_doc] ready_kb) = ready_kb).
Proof.
  apply (add_documents_saves_iff_nonempty offline [scope2_doc] ready_kb 0).
  reflexivity.
Defined.

(** ** The Chunker's invariant *)

Lemma starts_with_length sep : forall text,
  Chunker.starts_with sep text = true -> (length sep <= length text)%nat.
Proof.
  induction sep as [|a sep IH]; intros text H; cbn [length]; [lia|].
  destruct text as [|b text]; [discriminate|].
  cbn [Chunker.starts_with] in H.
  apply andb_prop in H as [_ H]. apply IH in H. cbn [length]. lia.
Qed.

Lemma find_sep_fits sep : forall text i,
  Chunker.find_sep sep text = Some i ->
  (i + length sep <= length text)%nat.
Proof.
  induction text as [|c rest IH]; intros i H; [discriminate|].
  cbn [Chunker.find_sep] in H.
  destruct (Chunker.starts_with sep (c :: rest)) eqn:E.
  - inversion H; subst. apply starts_with_length in E. lia.
  - destruct (Chunker.find_sep sep rest) as [j|]; [|discriminate].
    inversion H; subst. specialize (IH j eq_refl). cbn [length]. lia.
Qed.

Lemma length_string_of_list_ascii (l : list ascii) :
  String.length (string_of_list_ascii l) = length l.
Proof. induction l as [|c l IH]; cbn; [reflexivity | now rewrite IH]. Qed.

Section ChunkerInvariant.

Variables chunk_size chunk_overlap : nat.
Variable doc : list ascii.

Local Abbreviation good := (Chunker.good chunk_size chunk_overlap doc).

Lemma at_offset_take start text n :
  Chunker.at_offset doc (start, text) ->
  Chunker.at_offset doc (start, take n text).
Proof.
  unfold Chunker.at_offset, Chunker.span_end. cbn [fst snd].
  intros [Heq Hend]. split.
  - rewrite <- Heq at 2. rewrite take_take, length_take. reflexivity.
  - rewrite length_take. lia.
Qed.

Lemma at_offset_drop start text i :
  Chunker.at_offset doc (start, text) -> (i <= length text)%nat ->
  Chunker.at_offset doc ((start + i)%nat, drop i text).
Proof.
  unfold Chunker.at_offset, Chunker.span_end. cbn [fst snd].
  intros [Heq Hend] Hi. split.
  - rewrite <- Heq at 2. rewrite skipn_firstn_comm, drop_drop, length_drop.
    reflexivity.
  - rewrite length_drop. lia.
Qed.

Lemma good_nil lo hi : good lo hi [].
Proof. unfold Chunker.good. repeat split; constructor. Qed.

Lemma good_cons lo lo' hi s rest :
  Chunker.at_offset doc s -> (length s.2 <= chunk_size)%nat ->
  (lo <= s.1)%nat -> (Chunker.span_end s <= hi)%nat ->
  (s.1 <= lo')%nat -> (Chunker.span_end s <= lo' + chunk_overlap)%nat ->
  good lo' hi rest ->
  good lo hi (s :: rest).
Proof.
  intros Hat Hsize Hlo Hhi Hnext Hreach (R1 & R2 & R3 & R4). unfold Chunker.good.
  split; [constructor; assumption|].
  split; [constructor; assumption|].
  split.
  - constructor; [lia|].
    eapply Forall_impl; [exact R3|]. cbn beta. intros t [? ?]. lia.
  - constructor; [exact R4|].
    eapply Forall_impl; [exact R3|]. cbn beta. intros t [? ?].
    unfold Chunker.follows. lia.
Qed.

Lemma good_app lo mid hi xs ys :
  (lo <= mid)%nat -> (mid <= hi)%nat ->
  good lo mid xs -> good mid hi ys -> good lo hi (xs ++ ys).
Proof.
  intros Hlo Hhi (X1 & X2 & X3 & X4) (Y1 & Y2 & Y3 & Y4). unfold Chunker.good.
  split; [apply Forall_app; auto|].
  split; [apply Forall_app; auto|].
  split.
  - apply Forall_app; split.
    + eapply Forall_impl; [exact X3|]. cbn beta. intros t [? ?]. lia.
    + eapply Forall_impl; [exact Y3|]. cbn beta. intros t [? ?]. lia.
  - clear X1 X2 Y1 Y2.
    induction xs as [|x xs IH]; [exact Y4|].
    inversion X3; subst. inversion X4; subst.
    cbn [app]. constructor; [apply IH; assumption|].
    apply Forall_app; split; [assumption|].
    eapply Forall_impl; [exact Y3|]. cbn beta. intros t [? ?].
    unfold Chunker.follows, Chunker.span_end in *. lia.
Qed.

Lemma good_weaken lo lo' hi spans :
  (lo <= lo')%nat -> good lo' hi spans -> good lo hi spans.
Proof.
  intros Hlo (R1 & R2 & R3 & R4). repeat split; auto.
  eapply Forall_impl; [exact R3|]. cbn beta. intros t [? ?]. lia.
Qed.

Lemma good_single lo hi s :
  Chunker.at_offset doc s -> (length s.2 <= chunk_size)%nat ->
  (lo <= s.1)%nat -> (Chunker.span_end s <= hi)%nat ->
  good lo hi [s].
Proof.
  intros Hat Hsize Hlo Hhi.
  apply (good_cons lo (Chunker.span_end s) hi); auto using good_nil;
    unfold Chunker.span_end; lia.
Qed.

Lemma good_adjacent lo hi spans :
  good lo hi spans -> Chunker.overlaps_within chunk_overlap spans.
Proof.
  intros (_ & _ & _ & R4).
  induction R4 as [|a rest Hrest IH Ha]; [exact I|].
  cbn [Chunker.overlaps_within]. split; [|exact IH].
  destruct rest as [|b rest']; [exact I|].
  inversion Ha; subst. assumption.
Qed.

(** The windows of a piece of the document. *)
Lemma windows_good : forall fuel start text,
  Chunker.at_offset doc (start, text) ->
  good start (start + length text)
       (Chunker.windows chunk_size chunk_overlap fuel start text).
Proof.
  induction fuel as [|fuel IH]; intros start text Hat;
    cbn [Chunker.windows]; [apply good_nil|].
  destruct (Nat.leb_spec (length text) chunk_size) as [Hfit|Hlong].
  - apply good_single; auto; unfold Chunker.span_end; cbn [fst snd]; lia.
  - apply (good_cons _ (start + (chunk_size - chunk_overlap))%nat).
    + apply at_offset_take, Hat.
    + cbn [snd]. rewrite length_take. lia.
    + cbn [fst]. lia.
    + unfold Chunker.span_end. cbn [fst snd]. rewrite length_take. lia.
    + cbn [fst]. lia.
    + unfold Chunker.span_end. cbn [fst snd]. rewrite length_take. lia.
    + replace (start + length text)%nat
        with (start + (chunk_size - chunk_overlap)
              + length (drop (chunk_size - chunk_overlap) text))%nat
        by (rewrite length_drop; lia).
      apply IH, at_offset_drop; [exact Hat | lia].
Qed.

Lemma covers_later lo lo' hi spans :
  (lo <= lo')%nat ->
  Chunker.covers lo hi spans -> Chunker.covers lo' hi spans.
Proof.
  destruct spans as [|s rest]; cbn [Chunker.covers]; [lia|].
  intros Hlo [Hs Hrest]. split; [lia | exact Hrest].
Qed.

(** With an overlap below the size the fuel is enough: the windows leave
    no character of the text out. *)
Lemma windows_cover : forall fuel start text,
  (chunk_overlap < chunk_size)%nat -> (length text <= fuel)%nat ->
  Chunker.covers start (start + length text)
    (Chunker.windows chunk_size chunk_overlap fuel start text).
Proof.
  induction fuel as [|fuel IH]; intros start text Hvalid Hfuel;
    cbn [Chunker.windows Chunker.covers]; [lia|].
  destruct (Nat.leb_spec (length text) chunk_size) as [Hfit|Hlong];
    cbn [Chunker.covers]; unfold Chunker.span_end; cbn [fst snd].
  - split; lia.
  - split; [lia|]. rewrite length_take.
    apply (covers_later (start + (chunk_size - chunk_overlap))%nat); [lia|].
    replace (start + length text)%nat
      with (start + (chunk_size - chunk_overlap)
            + length (drop (chunk_size - chunk_overlap) text))%nat
      by (rewrite length_drop; lia).
    apply IH; [exact Hvalid|]. rewrite length_drop. lia.
Qed.

Lemma segments_weaken lo lo' hi segs :
  (lo <= lo')%nat ->
  Chunker.segments doc lo' hi segs -> Chunker.segments doc lo hi segs.
Proof.
  destruct segs as [|seg rest]; [auto|].
  cbn [Chunker.segments]. intros Hlo (H1 & H2 & H3 & H4).
  split; [exact H1|]. split; [lia|]. split; [exact H3 | exact H4].
Qed.

(** The segments between separators are pieces of the document, in
    order and disjoint. *)
Lemma split_on_segments sep : forall fuel start text,
  Chunker.at_offset doc (start, text) ->
  Chunker.segments doc start (start + length text)
    (Chunker.split_on sep fuel start text).
Proof.
  assert (Hone : forall start text,
             Chunker.at_offset doc (start, text) ->
             Chunker.segments doc start (start + length text)
               [(start, text)]).
  { intros start text Hat. cbn [Chunker.segments].
    split; [exact Hat|]. unfold Chunker.span_end. cbn [fst snd].
    split; [lia|]. split; [lia | exact I]. }
  induction fuel as [|fuel IH]; intros start text Hat;
    cbn [Chunker.split_on]; [apply Hone, Hat|].
  destruct sep as [|a sep']; [apply Hone, Hat|].
  destruct (Chunker.find_sep (a :: sep') text) as [i|] eqn:Hfind;
    [|apply Hone, Hat].
  apply find_sep_fits in Hfind.
  cbn [Chunker.segments]. unfold Chunker.span_end at 1 2. cbn [fst snd].
  rewrite length_take.
  split; [apply at_offset_take, Hat|].
  split; [lia|]. split; [lia|].
  apply (segments_weaken _ (start + i + length (a :: sep'))%nat); [lia|].
  replace (start + length text)%nat
    with (start + i + length (a :: sep')
          + length (drop (i + length (a :: sep')) text))%nat
    by (rewrite length_drop; lia).
  apply IH.
  replace (start + i + length (a :: sep'))%nat
    with (start + (i + length (a :: sep')))%nat by lia.
  apply at_offset_drop; [exact Hat | lia].
Qed.

Lemma flat_map_good (f : Chunker.span -> list Chunker.span) :
  (forall seg, Chunker.at_offset doc seg ->
               good seg.1 (Chunker.span_end seg) (f seg)) ->
  forall segs lo hi,
    (lo <= hi)%nat -> Chunker.segments doc lo hi segs ->
    good lo hi (flat_map f segs).
Proof.
  intros Hf. induction segs as [|seg rest IH]; intros lo hi Hle Hsegs;
    cbn [flat_map]; [apply good_nil|].
  cbn [Chunker.segments] in Hsegs. destruct Hsegs as (Hat & Hlo & Hhi & Hrest).
  assert (seg.1 <= Chunker.span_end seg)%nat
    by (unfold Chunker.span_end; lia).
  apply (good_app lo (Chunker.span_end seg) hi); [lia | lia | |].
  - apply (good_weaken lo seg.1); [lia|]. apply Hf, Hat.
  - apply IH; [lia | exact Hrest].
Qed.

Lemma split_rec_good : forall seps start text,
  Chunker.at_offset doc (start, text) ->
  good start (start + length text)
       (Chunker.split_rec chunk_size chunk_overlap seps start text).
Proof.
  assert (Hsmall : forall start text,
             Chunker.at_offset doc (start, text) ->
             (length text <= chunk_size)%nat ->
             good start (start + length text)
                  match text with
                  | [] => []
                  | _ :: _ => [(start, text)]
                  end).
  { intros start text Hat Hfit. destruct text as [|c text]; [apply good_nil|].
    apply good_single; auto; unfold Chunker.span_end; cbn [fst snd]; lia. }
  induction seps as [|sep finer IH]; intros start text Hat;
    cbn [Chunker.split_rec];
    destruct (Nat.leb_spec (length text) chunk_size) as [Hfit|Hlong];
    auto using windows_good.
  apply flat_map_good; [|lia|apply split_on_segments, Hat].
  intros [s t] Hseg. apply IH, Hseg.
Qed.

End ChunkerInvariant.

(** The Chunker at work: windows of ten characters that share three, a text
    cut at its word boundaries, an empty document, rejected parameters. *)
Example split_text_windows :
  Chunker.split_text 10 3 "abcdefghijklmnopqrstuvwxyz"
  = ["abcdefghij"; "hijklmnopq"; "opqrstuvwx"; "vwxyz"].
Proof. vm_compute. reflexivity. Qed.

Example split_text_words :
  Chunker.split_text 10 3 "Scope 1 emissions are direct."
  = ["Scope"; "1"; "emissions"; "are"; "direct."].
Proof. vm_compute. reflexivity. Qed.

Example split_empty_document : Chunker.split 1000 200 "" = Some [].
Proof. vm_compute. reflexivity. Qed.

Example split_rejects_wide_overlap : Chunker.split 10 10 "abc" = None.
Proof. vm_compute. reflexivity. Qed.

Lemma spans_of_good chunk_size chunk_overlap text :
  Chunker.good chunk_size chunk_overlap (list_ascii_of_string text) 0
       (length (list_ascii_of_string text))
       (Chunker.spans_of chunk_size chunk_overlap text).
Proof.
  unfold Chunker.spans_of.
  apply (split_rec_good chunk_size chunk_overlap (list_ascii_of_string text)
           Chunker.separators 0 (list_ascii_of_string text)).
  unfold Chunker.at_offset, Chunker.span_end. cbn [fst snd drop].
  split; [apply firstn_all | lia].
Qed.

Lemma split_documents_chunked X documents :
  split_documents (chunked X) 1000 200 documents
  = flat_map
      (fun d => map (chunk_of d) (Chunker.spans_of 1000 200 (page_content d)))
      documents.
Proof.
  unfold split_documents. apply flat_map_ext. intros d.
  change (split_text (chunked X)) with Chunker.split_text.
  unfold Chunker.split_text, Chunker.split.
  replace (Chunker.valid 1000 200) with true by (vm_compute; reflexivity).
  rewrite map_map. reflexivity.
Qed.

(** C8. With the Chunker as text splitter, [load_documents] returns, for
    the documents it loaded and in their order, the chunks the Chunker cuts
    with [chunk_size = 1000] and [chunk_overlap = 200].  Every chunk is the
    piece of its document at its offset and has at most 1000 characters
    (the last one included), and each chunk starts no earlier than the one
    before it and shares at most 200 characters with it. *)
Theorem load_documents_chunks_are_bounded X w :
  let documents :=
    match DirectoryLoader_load false (kb_dir w) with
    | Ok loaded => loaded
    | Err _ => []
    end in
  (exists w',
     load_documents (chunked X) w
     = Returns
         (flat_map
            (fun d =>
               map (chunk_of d) (Chunker.spans_of 1000 200 (page_content d)))
            documents)
         w')
  /\ Forall
       (fun d =>
          Forall
            (fun s =>
               Chunker.at_offset (list_ascii_of_string (page_content d)) s
               /\ (String.length (Chunker.chunk_text s) <= 1000)%nat)
            (Chunker.spans_of 1000 200 (page_content d))
          /\ Chunker.overlaps_within 200
               (Chunker.spans_of 1000 200 (page_content d)))
       documents.
Proof.
  cbn zeta. split.
  - rewrite load_documents_eq.
    destruct (DirectoryLoader_load false (kb_dir w)) as [loaded|e].
    + eexists. rewrite split_documents_chunked. reflexivity.
    + eexists. reflexivity.
  - apply List.Forall_forall. intros d _.
    pose proof (spans_of_good 1000 200 (page_content d)) as Hgood.
    split; [|eapply good_adjacent; exact Hgood].
    destruct Hgood as (R1 & R2 & _ & _).
    apply List.Forall_forall. intros s Hs.
    rewrite List.Forall_forall in R1, R2.
    split; [apply R1, Hs|].
    unfold Chunker.chunk_text. rewrite length_string_of_list_ascii.
    apply R2, Hs.
Qed.

(** * Further properties of [rag_system.py] *)

(** ** When the two entry points raise *)

Lemma query_eq X question w :
  query X question w
  = match (match qa_chain w with
           | None => setup_qa_chain X w
           | Some _ => Returns tt w
           end) with
    | Raises e w1 => Raises e w1
    | Returns _ w1 =>
        match qa_chain w1 with
        | None => Returns (error_answer (none_has_no "invoke")) w1
        | Some c =>
            Returns
              (chain_answer X c (default [] (heap w1 !! chain_store c))
                 question)
              w1
        end
    end.
Proof.
  unfold query, invoke, chain_answer, error_answer. run.
  destruct (qa_chain w) as [c0|] eqn:Hchain.
  - rewrite Hchain.
    destruct (similarity_search X _ question (chain_k c0)) as [docs|e];
      [|reflexivity].
    destruct (generate X (chain_prompt c0) docs question); reflexivity.
  - destruct (setup_qa_chain X w) as [[] w1|e w1]; [|reflexivity].
    destruct (qa_chain w1) as [c|]; [|reflexivity].
    destruct (similarity_search X _ question (chain_k c)) as [docs|e];
      [|reflexivity].
    destruct (generate X (chain_prompt c) docs question); reflexivity.
Qed.

(** X1. [get_context_for_agent] raises exactly when the store is not
    loaded yet and [load_vector_store] raises; with a loaded store it
    always returns. *)
Theorem context_raises_only_in_lazy_load X query max_length w :
  returned (get_context_for_agent X query max_length w)
  = match vector_store w with
    | Some _ => true
    | None => returned (load_vector_store X w)
    end.
Proof.
  rewrite get_context_for_agent_eq, retrieve_context_eq,
    ensure_vector_store_eq.
  destruct (vector_store w) as [r|] eqn:Hstore.
  - rewrite Hstore.
    destruct (similarity_search X _ query 4) as [[|d ds]|e]; reflexivity.
  - destruct (load_vector_store X w) as [[] w1|e w1]; [|reflexivity].
    destruct (vector_store w1) as [r|]; [|reflexivity].
    destruct (similarity_search X _ query 4) as [[|d ds]|e]; reflexivity.
Qed.

(** X2. [query] raises exactly when no chain is set up yet and
    [setup_qa_chain] raises; once a chain exists it always returns. *)
Theorem query_raises_only_in_setup X question w :
  returned (query X question w)
  = match qa_chain w with
    | Some _ => true
    | None => returned (setup_qa_chain X w)
    end.
Proof.
  rewrite query_eq.
  destruct (qa_chain w) as [c|] eqn:Hchain.
  - rewrite Hchain. reflexivity.
  - destruct (setup_qa_chain X w) as [[] w1|e w1]; [|reflexivity].
    destruct (qa_chain w1); reflexivity.
Qed.

(** X3. With a chain set up, [query] changes nothing: it returns the
    model's text with the retrieved documents, or, when the search or the
    model raises, the answer "Error processing query: ..." with no source
    document. *)
Theorem query_with_chain_answers X question w c :
  qa_chain w = Some c ->
  query X question w
  = Returns
      (chain_answer X c (default [] (heap w !! chain_store c)) question) w
  /\ (forall e docs,
        similarity_search X (default [] (heap w !! chain_store c)) question
          (chain_k c) = Ok docs ->
        generate X (chain_prompt c) docs question = Err e ->
        query X question w
        = Returns {| answer := "Error processing query: " +:+ exn_str e;
                     source_documents := [] |} w).
Proof.
  intros Hchain. rewrite query_eq, Hchain, Hchain.
  split; [reflexivity|].
  intros e docs Hsearch Hgen. unfold chain_answer.
  rewrite Hsearch, Hgen. reflexivity.
Qed.

Lemma query_with_chain_answers_witness :
  query model_down "What is Scope 1 emissions?" serving_kb
  = Returns
      (chain_answer model_down (qa_chain_over 0)
         (default [] (heap serving_kb !! chain_store (qa_chain_over 0)))
         "What is Scope 1 emissions?")
      serving_kb
  /\ (forall e docs,
        similarity_search model_down
          (default [] (heap serving_kb !! chain_store (qa_chain_over 0)))
          "What is Scope 1 emissions?" (chain_k (qa_chain_over 0)) = Ok docs ->
        generate model_down (chain_prompt (qa_chain_over 0)) docs
          "What is Scope 1 emissions?" = Err e ->
        query model_down "What is Scope 1 emissions?" serving_kb
        = Returns {| answer := "Error processing query: " +:+ exn_str e;
                     source_documents := [] |} serving_kb).
Proof.
  apply (query_with_chain_answers model_down "What is Scope 1 emissions?"
           serving_kb (qa_chain_over 0)).
  reflexivity.
Defined.

(** X4. With a loaded store, a similarity search that raises does not
    reach the caller of [get_context_for_agent]: the error is printed and
    the "no relevant context" sentence is returned; instance and disk stay
    as they were. *)
Theorem failed_search_gives_sentinel X query max_length w r e :
  vector_store w = Some r ->
  similarity_search X (default [] (heap w !! r)) query 4 = Err e ->
  get_context_for_agent X query max_length w
  = Returns no_context
      (emit ("Error retrieving context: " +:+ exn_str e) w).
Proof.
  intros Hstore Hsearch.
  rewrite get_context_for_agent_eq, retrieve_context_eq,
    ensure_vector_store_eq, Hstore, Hstore, Hsearch.
  reflexivity.
Qed.

Lemma failed_search_gives_sentinel_witness :
  get_context_for_agent search_down "What is Scope 1?" 2000 ready_kb
  = Returns no_context
      (emit "Error retrieving context: embedding model unavailable"
            ready_kb).
Proof.
  apply (failed_search_gives_sentinel search_down "What is Scope 1?" 2000
           ready_kb 0
           (Exception "RuntimeError" "embedding model unavailable"));
    reflexivity.
Defined.

(** X5. On a new instance over a knowledge base with no file and no saved
    index, [get_context_for_agent] returns the "no relevant context"
    sentence: the build finds nothing, the store stays [None], and the
    failed search on it is caught. *)
Theorem empty_knowledge_base_gives_sentinel X query max_length w :
  vector_store w = None ->
  index_dir w !! faiss_index_path w = None ->
  kb_dir w = [] ->
  get_context_for_agent X query max_length w
  = Returns no_context
      (emit_all
         [ "No existing vector store found. Creating new one...";
           "No documents found to create vector store.";
           "Error retrieving context: 'NoneType' object has no attribute 'similarity_search'" ]
         w).
Proof.
  intros Hstore Hindex Hfiles.
  rewrite get_context_for_agent_eq, retrieve_context_eq,
    ensure_vector_store_eq, Hstore, load_vector_store_eq, Hindex,
    create_vector_store_eq, load_documents_eq.
  cbn [kb_dir emit]. rewrite Hfiles. cbn.
  rewrite Hstore. reflexivity.
Qed.

Lemma empty_knowledge_base_gives_sentinel_witness :
  get_context_for_agent offline "What is Scope 1?" 2000 empty_kb
  = Returns no_context
      (emit_all
         [ "No existing vector store found. Creating new one...";
           "No documents found to create vector store.";
           "Error retrieving context: 'NoneType' object has no attribute 'similarity_search'" ]
         empty_kb).
Proof.
  apply empty_knowledge_base_gives_sentinel; reflexivity.
Defined.

(** ** Building, saving and extending the store *)

Lemma create_vector_store_built X documents w :
  documents <> [] ->
  embed_documents X documents = None ->
  create_vector_store X (Some documents) w
  = Returns tt
      {| knowledge_base_path := knowledge_base_path w;
         vector_store := Some (length (heap w));
         qa_chain := qa_chain w;
         heap := heap w ++ [documents];
         kb_dir := kb_dir w;
         index_dir := <[faiss_index_path w := Snapshot documents]> (index_dir w);
         saves := saves w ++ [faiss_index_path w];
         stdout := stdout w
                   ++ ["Vector store created with "
                       +:+ str_nat (length documents)
                       +:+ " document chunks."] |}.
Proof.
  intros Hne Hembed. rewrite create_vector_store_eq.
  destruct documents as [|d ds]; [congruence|].
  rewrite Hembed. cbn zeta.
  unfold emit, write_index, set_vector_store, set_heap, faiss_index_path.
  cbn [knowledge_base_path vector_store qa_chain heap kb_dir index_dir
       saves stdout].
  rewrite lookup_app_r by lia. rewrite Nat.sub_diag. reflexivity.
Qed.

Lemma add_documents_added X documents w r :
  vector_store w = Some r ->
  documents <> [] ->
  embed_documents X documents = None ->
  add_documents X documents w
  = Returns tt
      {| knowledge_base_path := knowledge_base_path w;
         vector_store := Some r;
         qa_chain := qa_chain w;
         heap := alter (fun s => s ++ documents) r (heap w);
         kb_dir := kb_dir w;
         index_dir :=
           <[faiss_index_path w :=
               Snapshot (default [] ((fun s => s ++ documents) <$> heap w !! r))]>
             (index_dir w);
         saves := saves w ++ [faiss_index_path w];
         stdout := stdout w
                   ++ ["Added " +:+ str_nat (length documents)
                       +:+ " documents to vector store."] |}.
Proof.
  intros Hstore Hne Hembed.
  rewrite (add_documents_ready X documents w r Hstore).
  destruct documents as [|d ds]; [congruence|].
  rewrite Hembed. cbn zeta.
  unfold emit, write_index, set_heap, faiss_index_path.
  cbn [knowledge_base_path vector_store qa_chain heap kb_dir index_dir
       saves stdout].
  rewrite list_lookup_alter_eq, Hstore. reflexivity.
Qed.

(** X6. What [create_vector_store] saves is what a later instance loads:
    after a build from a non-empty list, the index directory holds exactly
    the documents, and [load_vector_store] on a new instance over the same
    directory returns with a store of exactly these documents, writing
    nothing. *)
Theorem saved_index_round_trip X documents w :
  documents <> [] ->
  embed_documents X documents = None ->
  exists w1 w2 r,
    create_vector_store X (Some documents) w = Returns tt w1
    /\ index_dir w1 !! faiss_index_path w = Some (Snapshot documents)
    /\ load_vector_store X
         (world_of (construct (knowledge_base_path w) w1))
       = Returns tt w2
    /\ vector_store w2 = Some r
    /\ heap w2 !! r = Some documents
    /\ index_dir w2 = index_dir w1
    /\ saves w2 = saves w1.
Proof.
  intros Hne Hembed.
  eexists _, _, _.
  split; [apply create_vector_store_built; assumption|].
  split; [cbn [index_dir]; apply lookup_insert_eq|].
  rewrite load_vector_store_eq.
  unfold construct, modify, world_of, faiss_index_path.
  cbn [knowledge_base_path index_dir heap].
  rewrite lookup_insert_eq.
  split; [reflexivity|].
  cbn [emit set_vector_store set_heap vector_store heap index_dir saves].
  split; [reflexivity|].
  split; [|split; reflexivity].
  rewrite lookup_app_r by lia. rewrite Nat.sub_diag. reflexivity.
Qed.

Lemma saved_index_round_trip_witness :
  exists w1 w2 r,
    create_vector_store offline (Some [scope1_doc; scope2_doc]) unbuilt_kb
    = Returns tt w1
    /\ index_dir w1 !! faiss_index_path unbuilt_kb
       = Some (Snapshot [scope1_doc; scope2_doc])
    /\ load_vector_store offline
         (world_of (construct (knowledge_base_path unbuilt_kb) w1))
       = Returns tt w2
    /\ vector_store w2 = Some r
    /\ heap w2 !! r = Some [scope1_doc; scope2_doc]
    /\ index_dir w2 = index_dir w1
    /\ saves w2 = saves w1.
Proof.
  apply (saved_index_round_trip offline [scope1_doc; scope2_doc] unbuilt_kb).
  - discriminate.
  - reflexivity.
Defined.

(** X7. On a loaded store, [add_documents] with a non-empty list appends
    the documents to the same store object and saves the extended store:
    memory and disk then hold the old entries followed by the new ones,
    and the other store objects and the chain are untouched. *)
Theorem add_documents_extends_store X documents w r old :
  vector_store w = Some r ->
  heap w !! r = Some old ->
  documents <> [] ->
  embed_documents X documents = None ->
  exists w',
    add_documents X documents w = Returns tt w'
    /\ vector_store w' = Some r
    /\ heap w' !! r = Some (old ++ documents)
    /\ index_dir w' !! faiss_index_path w = Some (Snapshot (old ++ documents))
    /\ (forall r', r' <> r -> heap w' !! r' = heap w !! r')
    /\ qa_chain w' = qa_chain w.
Proof.
  intros Hstore Hold Hne Hembed.
  eexists. split; [apply add_documents_added; eassumption|].
  cbn [vector_store heap index_dir qa_chain].
  split; [reflexivity|].
  split; [rewrite list_lookup_alter_eq, Hold; reflexivity|].
  split; [rewrite lookup_insert_eq, Hold; reflexivity|].
  split; [|reflexivity].
  intros r' Hr'. apply list_lookup_alter_ne. congruence.
Qed.

Lemma add_documents_extends_store_witness :
  exists w',
    add_documents offline [empty_doc] ready_kb = Returns tt w'
    /\ vector_store w' = Some 0%nat
    /\ heap w' !! 0%nat = Some ([scope1_doc; scope2_doc] ++ [empty_doc])
    /\ index_dir w' !! faiss_index_path ready_kb
       = Some (Snapshot ([scope1_doc; scope2_doc] ++ [empty_doc]))
    /\ (forall r', r' <> 0%nat -> heap w' !! r' = heap ready_kb !! r')
    /\ qa_chain w' = qa_chain ready_kb.
Proof.
  apply (add_documents_extends_store offline [empty_doc] ready_kb 0
           [scope1_doc; scope2_doc]).
  - reflexivity.
  - reflexivity.
  - discriminate.
  - reflexivity.
Defined.

(** X8. A chain set up over the current store sees what [add_documents]
    adds: the documents go into the store object the retriever holds, so
    the next [query] searches the old entries followed by the new ones. *)
Theorem chain_sees_added_documents X documents question w c old :
  qa_chain w = Some c ->
  vector_store w = Some (chain_store c) ->
  heap w !! chain_store c = Some old ->
  documents <> [] ->
  embed_documents X documents = None ->
  exists w',
    add_documents X documents w = Returns tt w'
    /\ query X question w'
       = Returns (chain_answer X c (old ++ documents) question) w'.
Proof.
  intros Hchain Hstore Hold Hne Hembed.
  eexists. split; [apply add_documents_added; eassumption|].
  rewrite query_eq. cbn [qa_chain heap]. rewrite Hchain.
  cbn [qa_chain heap].
  rewrite list_lookup_alter_eq, Hold. reflexivity.
Qed.

Lemma chain_sees_added_documents_witness :
  exists w',
    add_documents offline [empty_doc] serving_kb = Returns tt w'
    /\ query offline "What is Scope 1?" w'
       = Returns
           (chain_answer offline (qa_chain_over 0)
              ([scope1_doc; scope2_doc] ++ [empty_doc]) "What is Scope 1?")
           w'.
Proof.
  apply (chain_sees_added_documents offline [empty_doc] "What is Scope 1?"
           serving_kb (qa_chain_over 0) [scope1_doc; scope2_doc]).
  - reflexivity.
  - reflexivity.
  - reflexivity.
  - discriminate.
  - reflexivity.
Defined.

(** X9. [create_vector_store] does not touch an existing chain: the
    instance gets a new store object, but the chain's retriever keeps the
    object it was made from, so [query] goes on answering from the entries
    of the previous store. *)
Theorem chain_keeps_replaced_store X documents question w c old :
  qa_chain w = Some c ->
  heap w !! chain_store c = Some old ->
  documents <> [] ->
  embed_documents X documents = None ->
  exists w',
    create_vector_store X (Some documents) w = Returns tt w'
    /\ vector_store w' = Some (length (heap w))
    /\ vector_store w' <> Some (chain_store c)
    /\ heap w' !! length (heap w) = Some documents
    /\ query X question w'
       = Returns (chain_answer X c old question) w'.
Proof.
  intros Hchain Hold Hne Hembed.
  pose proof (lookup_lt_Some _ _ _ Hold) as Hlt.
  eexists. split; [apply create_vector_store_built; assumption|].
  cbn [vector_store heap].
  split; [reflexivity|].
  split; [intros H; inversion H; lia|].
  split; [rewrite lookup_app_r by lia; rewrite Nat.sub_diag; reflexivity|].
  rewrite query_eq. cbn [qa_chain heap]. rewrite Hchain.
  cbn [qa_chain heap].
  rewrite lookup_app_l by exact Hlt. rewrite Hold. reflexivity.
Qed.

Lemma chain_keeps_replaced_store_witness :
  exists w',
    create_vector_store offline (Some [empty_doc]) serving_kb = Returns tt w'
    /\ vector_store w' = Some (length (heap serving_kb))
    /\ vector_store w' <> Some (chain_store (qa_chain_over 0))
    /\ heap w' !! length (heap serving_kb) = Some [empty_doc]
    /\ query offline "What is Scope 1?" w'
       = Returns
           (chain_answer offline (qa_chain_over 0) [scope1_doc; scope2_doc]
              "What is Scope 1?")
           w'.
Proof.
  apply (chain_keeps_replaced_store offline [empty_doc] "What is Scope 1?"
           serving_kb (qa_chain_over 0) [scope1_doc; scope2_doc]).
  - reflexivity.
  - reflexivity.
  - discriminate.
  - reflexivity.
Defined.

(** X10. Adding two batches one after the other leaves the same store
    objects and the same saved indexes as adding their concatenation at
    once. *)
Theorem add_documents_in_two_steps X first second w r :
  vector_store w = Some r ->
  first <> [] -> second <> [] ->
  embed_documents X first = None ->
  embed_documents X second = None ->
  embed_documents X (first ++ second) = None ->
  let two := world_of (add_documents X second
                         (world_of (add_documents X first w))) in
  let one := world_of (add_documents X (first ++ second) w) in
  heap two = heap one /\ index_dir two = index_dir one.
Proof.
  intros Hstore Hfirst Hsecond E1 E2 E12. cbn zeta.
  rewrite (add_documents_added X first w r Hstore Hfirst E1).
  cbn [world_of].
  erewrite (add_documents_added X second _ r);
    [|reflexivity | exact Hsecond | exact E2].
  rewrite (add_documents_added X (first ++ second) w r Hstore);
    [|destruct first; [congruence | discriminate] | exact E12].
  cbn [world_of heap index_dir knowledge_base_path faiss_index_path].
  unfold faiss_index_path. cbn [knowledge_base_path].
  rewrite insert_insert_eq, list_lookup_alter_eq, list_alter_alter_eq.
  split.
  - apply list_alter_ext; [|reflexivity].
    intros s _. cbn. symmetry. apply app_assoc.
  - do 2 f_equal. destruct (heap w !! r) as [old|]; cbn; [|reflexivity].
    symmetry. apply app_assoc.
Qed.

Lemma add_documents_in_two_steps_witness :
  let two := world_of (add_documents offline [scope2_doc]
                         (world_of (add_documents offline [empty_doc]
                                      ready_kb))) in
  let one := world_of (add_documents offline ([empty_doc] ++ [scope2_doc])
                         ready_kb) in
  heap two = heap one /\ index_dir two = index_dir one.
Proof.
  apply (add_documents_in_two_steps offline [empty_doc] [scope2_doc]
           ready_kb 0).
  - reflexivity.
  - discriminate.
  - discriminate.
  - reflexivity.
  - reflexivity.
  - reflexivity.
Defined.

(** X11. On a new instance over a knowledge base with no file and no saved
    index, [add_documents] with a non-empty list raises: the lazy build
    leaves the store at [None], and calling [add_documents] on it fails
    with an [AttributeError]; nothing is saved. *)
Theorem add_documents_without_store_raises X documents w :
  vector_store w = None ->
  index_dir w !! faiss_index_path w = None ->
  kb_dir w = [] ->
  documents <> [] ->
  add_documents X documents w
  = Raises (none_has_no "add_documents")
      (emit_all
         [ "No existing vector store found. Creating new one...";
           "No documents found to create vector store." ]
         w).
Proof.
  intros Hstore Hindex Hfiles Hne.
  unfold add_documents. run.
  rewrite ensure_vector_store_eq, Hstore, load_vector_store_eq, Hindex,
    create_vector_store_eq, load_documents_eq.
  cbn [kb_dir emit]. rewrite Hfiles. cbn.
  destruct documents as [|d ds]; [congruence|].
  cbn [vector_store emit]. rewrite Hstore. reflexivity.
Qed.

Lemma add_documents_without_store_raises_witness :
  add_documents offline [scope1_doc] empty_kb
  = Raises (none_has_no "add_documents")
      (emit_all
         [ "No existing vector store found. Creating new one...";
           "No documents found to create vector store." ]
         empty_kb).
Proof.
  apply add_documents_without_store_raises;
    [reflexivity | reflexivity | reflexivity | discriminate].
Defined.

(** X12. After [create_vector_store] has built a store from a non-empty
    list, neither [query] nor [get_context_for_agent] can raise, whatever
    the search and the model do. *)
Theorem built_store_serves_without_raising
    X documents question query' max_length w w1 :
  documents <> [] ->
  create_vector_store X (Some documents) w = Returns tt w1 ->
  returned (query X question w1) = true
  /\ returned (get_context_for_agent X query' max_length w1) = true.
Proof.
  intros Hne Hbuilt.
  assert (Hstore : vector_store w1 = Some (length (heap w))).
  { rewrite create_vector_store_eq in Hbuilt.
    destruct documents as [|d ds]; [congruence|].
    destruct (embed_documents X (d :: ds)); [discriminate|].
    inversion Hbuilt; subst. reflexivity. }
  split.
  - rewrite query_eq.
    destruct (qa_chain w1) as [c|] eqn:Hchain.
    + rewrite Hchain. reflexivity.
    + rewrite setup_qa_chain_eq, ensure_vector_store_eq, Hstore, Hstore.
      reflexivity.
  - rewrite get_context_for_agent_eq, retrieve_context_eq,
      ensure_vector_store_eq, Hstore, Hstore.
    destruct (similarity_search X _ query' 4) as [[|d ds]|e]; reflexivity.
Qed.

Lemma built_store_serves_without_raising_witness :
  returned (query model_down "What is Scope 1?"
              (world_of (create_vector_store model_down (Some [scope1_doc])
                           unbuilt_kb))) = true
  /\ returned (get_context_for_agent model_down "What is Scope 1?" 2000
                 (world_of (create_vector_store model_down
                              (Some [scope1_doc]) unbuilt_kb))) = true.
Proof.
  apply (built_store_serves_without_raising model_down [scope1_doc]
           "What is Scope 1?" "What is Scope 1?" 2000 unbuilt_kb).
  - discriminate.
  - vm_compute. reflexivity.
Defined.

(** ** More on the assembled context *)

Lemma total_len_take_le n parts :
  total_len (take n parts) <= total_len parts.
Proof.
  revert n. induction parts as [|p ps IH]; intros [|n]; cbn [total_len];
    try rewrite firstn_O; try rewrite firstn_nil; cbn [firstn total_len].
  - lia.
  - lia.
  - pose proof (len_nonneg p). pose proof (total_len_nonneg ps). lia.
  - specialize (IH n). lia.
Qed.

(** X13. When all the retrieved blocks together fit within [max_length],
    the context holds every one of them, in rank order. *)
Theorem context_holds_all_blocks_that_fit
    X query max_length w docs w' :
  retrieve_context X query 4 w = Returns docs w' ->
  docs <> [] ->
  total_len (blocks 1 docs) <= max_length ->
  get_context_for_agent X query max_length w
  = Returns (join nl (blocks 1 docs)) w'.
Proof.
  intros Hret Hne Hfit.
  rewrite get_context_for_agent_eq, Hret.
  destruct docs as [|d rest]; [congruence|].
  destruct (context_loop_prefix max_length (d :: rest) 1 [] 0)
    as (n & Hn & Heq & _ & Hout).
  rewrite Heq. cbn [app].
  assert (Hall : n = length (d :: rest)).
  { destruct (Nat.eq_dec n (length (d :: rest))) as [|Hlt]; [assumption|].
    specialize (Hout ltac:(lia)).
    pose proof (total_len_take_le (S n) (blocks 1 (d :: rest))). lia. }
  rewrite Hall, <- (length_blocks 1 (d :: rest)), firstn_all.
  reflexivity.
Qed.

Lemma context_holds_all_blocks_that_fit_witness :
  get_context_for_agent offline "What is Scope 1?" 2000 ready_kb
  = Returns (join nl (blocks 1 [scope1_doc; scope2_doc])) ready_kb.
Proof.
  apply (context_holds_all_blocks_that_fit offline "What is Scope 1?" 2000
           ready_kb [scope1_doc; scope2_doc] ready_kb).
  - vm_compute. reflexivity.
  - discriminate.
  - vm_compute. discriminate.
Defined.

Lemma context_loop_grows m1 m2 docs : forall i parts cur,
  m1 <= m2 ->
  context_loop m1 i docs parts cur
    `prefix_of` context_loop m2 i docs parts cur.
Proof.
  induction docs as [|d ds IH]; intros i parts cur Hle;
    cbn [context_loop]; [reflexivity|].
  destruct (Z.gtb_spec (cur + len (source_block i d)) m1) as [H1|H1].
  - destruct (Z.gtb_spec (cur + len (source_block i d)) m2) as [H2|H2];
      [reflexivity|].
    destruct (context_loop_prefix m2 ds (S i) (parts ++ [source_block i d])
                (cur + len (source_block i d))) as (n & _ & Heq & _).
    rewrite Heq, <- app_assoc. apply prefix_app_r. reflexivity.
  - destruct (Z.gtb_spec (cur + len (source_block i d)) m2) as [H2|H2];
      [lia|].
    apply IH, Hle.
Qed.

(** X14. A larger [max_length] never loses a block: the blocks in the
    context for [m1] are the first blocks of the context for any
    [m2 >= m1]. *)
Theorem context_grows_with_max_length X query m1 m2 w d rest w' :
  retrieve_context X query 4 w = Returns (d :: rest) w' ->
  m1 <= m2 ->
  exists parts1 parts2,
    get_context_for_agent X query m1 w = Returns (join nl parts1) w'
    /\ get_context_for_agent X query m2 w = Returns (join nl parts2) w'
    /\ parts1 `prefix_of` parts2.
Proof.
  intros Hret Hle.
  exists (context_loop m1 1 (d :: rest) [] 0),
         (context_loop m2 1 (d :: rest) [] 0).
  rewrite !get_context_for_agent_eq, Hret.
  split; [reflexivity|]. split; [reflexivity|].
  apply context_loop_grows, Hle.
Qed.

Lemma context_grows_with_max_length_witness :
  exists parts1 parts2,
    get_context_for_agent offline "What is Scope 1?" 100 ready_kb
    = Returns (join nl parts1) ready_kb
    /\ get_context_for_agent offline "What is Scope 1?" 2000 ready_kb
       = Returns (join nl parts2) ready_kb
    /\ parts1 `prefix_of` parts2.
Proof.
  apply (context_grows_with_max_length offline "What is Scope 1?" 100 2000
           ready_kb scope1_doc [scope2_doc] ready_kb).
  - vm_compute. reflexivity.
  - lia.
Defined.

Lemma join_cons sep p ps :
  exists tail, join sep (p :: ps) = p +:+ tail.
Proof.
  destruct ps as [|q qs].
  - exists "". unfold join. cbn [String.concat].
    induction p as [|c p IH]; [reflexivity|].
    change (String c p = String c (p +:+ "")). f_equal. exact IH.
  - exists (sep +:+ join sep (q :: qs)). reflexivity.
Qed.

(** X15. Whenever the first block fits, the context starts with the text
    "[Source 1]: ", the first document and a line feed. *)
Theorem context_starts_with_first_source X query max_length w d rest w' :
  retrieve_context X query 4 w = Returns (d :: rest) w' ->
  len (source_block 1 d) <= max_length ->
  source_block 1 d = "[Source 1]: " +:+ page_content d +:+ nl
  /\ exists tail,
       get_context_for_agent X query max_length w
       = Returns (source_block 1 d +:+ tail) w'.
Proof.
  intros Hret Hfit. split; [reflexivity|].
  rewrite get_context_for_agent_eq, Hret. cbn [context_loop].
  destruct (Z.gtb_spec (0 + len (source_block 1 d)) max_length) as [H|_];
    [lia|].
  destruct (context_loop_prefix max_length rest 2 ([] ++ [source_block 1 d])
              (0 + len (source_block 1 d))) as (n & _ & Heq & _).
  rewrite Heq. cbn [app].
  destruct (join_cons nl (source_block 1 d) (take n (blocks 2 rest)))
    as [tail Htail].
  exists tail. rewrite Htail. reflexivity.
Qed.

Lemma context_starts_with_first_source_witness :
  source_block 1 scope1_doc
  = "[Source 1]: " +:+ page_content scope1_doc +:+ nl
  /\ exists tail,
       get_context_for_agent offline "What is Scope 1?" 100 ready_kb
       = Returns (source_block 1 scope1_doc +:+ tail) ready_kb.
Proof.
  apply (context_starts_with_first_source offline "What is Scope 1?" 100
           ready_kb scope1_doc [scope2_doc] ready_kb).
  - vm_compute. reflexivity.
  - vm_compute. discriminate.
Defined.

(** ** Where the chunks come from *)

(** X16. Every chunk [load_documents] returns comes from a file of the
    knowledge base that could be read: it carries that file's path as
    metadata, and its text is one of the pieces the splitter, set to 1000
    and 200, cut from that file's text. *)
Theorem loaded_chunks_come_from_files X w :
  exists chunks w',
    load_documents X w = Returns chunks w'
    /\ forall c, In c chunks ->
         exists f text,
           In f (kb_dir w)
           /\ file_text f = Some text
           /\ metadata c = file_path f
           /\ In (page_content c) (split_text X 1000 200 text).
Proof.
  rewrite load_documents_eq, DirectoryLoader_load_strict.
  destruct (find unreadable (kb_dir w)) as [bad|] eqn:Hfind.
  - eexists [], _. split; [reflexivity|]. intros c [].
  - eexists _, _. split; [reflexivity|].
    intros c Hc. unfold split_documents in Hc.
    apply in_flat_map in Hc as (d & Hd & Hc).
    apply in_map_iff in Hd as (f & <- & Hf).
    apply in_map_iff in Hc as (piece & <- & Hpiece).
    pose proof (find_none _ _ Hfind f Hf) as Hread.
    unfold unreadable in Hread. unfold as_document in Hpiece.
    cbn [page_content metadata] in *.
    destruct (file_text f) as [text|] eqn:Htext; [|discriminate].
    exists f, text. cbn [default] in Hpiece. auto.
Qed.

(** * The set-up script *)

Lemma emit_all_eq lines w :
  emit_all lines w
  = {| knowledge_base_path := knowledge_base_path w;
       vector_store := vector_store w; qa_chain := qa_chain w;
       heap := heap w; kb_dir := kb_dir w; index_dir := index_dir w;
       saves := saves w; stdout := stdout w ++ lines |}.
Proof.
  unfold emit_all. revert w.
  induction lines as [|line lines IH]; intros w; cbn [fold_left].
  - rewrite app_nil_r. destruct w; reflexivity.
  - rewrite IH. unfold emit. cbn. rewrite <- app_assoc. reflexivity.
Qed.

Lemma emit_all_app xs ys w :
  emit_all (xs ++ ys) w = emit_all ys (emit_all xs w).
Proof. unfold emit_all. apply fold_left_app. Qed.

Lemma for_each_print (g : string -> string) items w :
  for_each items (fun item => print (g item)) w
  = Returns tt (emit_all (map g items) w).
Proof.
  revert w. induction items as [|item items IH]; intros w;
    cbn [for_each map]; [reflexivity|].
  run. cbv [mbind M_bind bind] in IH. rewrite IH. reflexivity.
Qed.


(** X17. Without a knowledge_base directory, [main] prints the banner and
    the two error lines and returns: no instance is made, nothing is read
    from the input, nothing is written. *)
Theorem main_stops_without_directory X path_exists typed w :
  path_exists "knowledge_base" = false ->
  main X path_exists typed w
  = Returns tt
      (emit_all
         (banner
          ++ [ "[ERROR] knowledge_base directory not found!";
               "Please ensure the knowledge base documents are in the 'knowledge_base' folder." ])
         w).
Proof.
  intros Hdir. unfold main. run. rewrite Hdir. reflexivity.
Qed.

Lemma main_stops_without_directory_witness :
  main offline (fun _ => false) None unbuilt_kb
  = Returns tt
      (emit_all
         (banner
          ++ [ "[ERROR] knowledge_base directory not found!";
               "Please ensure the knowledge base documents are in the 'knowledge_base' folder." ])
         unbuilt_kb).
Proof.
  apply main_stops_without_directory. reflexivity.
Defined.

(** X18. When files of the list are missing and the line typed is
    neither y nor Y, [main] prints the warning, the missing names, the
    question and "Setup cancelled.", and returns: no instance is made and
    nothing is written. *)
Theorem main_cancelled_on_refusal X path_exists response w :
  path_exists "knowledge_base" = true ->
  missing_files path_exists <> [] ->
  String.eqb (lower response) "y" = false ->
  main X path_exists (Some response) w
  = Returns tt
      (emit_all (preamble path_exists ++ ["Setup cancelled."]) w).
Proof.
  intros Hdir Hmissing Hno. unfold preamble.
  unfold main, input. run. rewrite Hdir. cbn [negb].
  destruct (missing_files path_exists) as [|file files] eqn:Hfiles;
    [congruence|].
  pose proof (for_each_print (fun file => "   - " +:+ file)
                (file :: files)) as Hloop.
  cbv [print modify] in Hloop. rewrite Hloop.
  rewrite Hno. cbn [negb].
  rewrite app_comm_cons, !emit_all_app. reflexivity.
Qed.

Lemma main_cancelled_on_refusal_witness :
  main offline (fun p => String.eqb p "knowledge_base") (Some "N") unbuilt_kb
  = Returns tt
      (emit_all
         (preamble (fun p => String.eqb p "knowledge_base")
          ++ ["Setup cancelled."])
         unbuilt_kb).
Proof.
  apply main_cancelled_on_refusal.
  - reflexivity.
  - vm_compute. discriminate.
  - reflexivity.
Defined.

(** X19. When files of the list are missing and the input is at its end,
    [main] raises the [EOFError] of [input]; no instance is made and
    nothing is written. *)
Theorem main_raises_at_end_of_input X path_exists w :
  path_exists "knowledge_base" = true ->
  missing_files path_exists <> [] ->
  main X path_exists None w
  = Raises (Exception "EOFError" "EOF when reading a line")
      (emit_all (preamble path_exists) w).
Proof.
  intros Hdir Hmissing. unfold preamble.
  unfold main, input. run. rewrite Hdir. cbn [negb].
  destruct (missing_files path_exists) as [|file files] eqn:Hfiles;
    [congruence|].
  pose proof (for_each_print (fun file => "   - " +:+ file)
                (file :: files)) as Hloop.
  cbv [print modify] in Hloop. rewrite Hloop.
  rewrite app_comm_cons, !emit_all_app. reflexivity.
Qed.

Lemma main_raises_at_end_of_input_witness :
  main offline (fun p => String.eqb p "knowledge_base") None unbuilt_kb
  = Raises (Exception "EOFError" "EOF when reading a line")
      (emit_all (preamble (fun p => String.eqb p "knowledge_base"))
                unbuilt_kb).
Proof.
  apply main_raises_at_end_of_input.
  - reflexivity.
  - vm_compute. discriminate.
Defined.


Lemma loaded_chunks_emit_all X lines w :
  loaded_chunks X (emit_all lines w) = loaded_chunks X w.
Proof. rewrite emit_all_eq. reflexivity. Qed.






(** The answer a failing model leaves on the screen. *)
Example preview_of_failed_generation :
  preview (answer (chain_answer model_down (qa_chain_over 0) [scope1_doc]
                     test_question))
  = "Error processing query: Connection error.".
Proof. vm_compute. reflexivity. Qed.


(** * Lazy loading happens once *)

(** X22. On an instance with no store yet and a saved snapshot,
    [get_context_for_agent] loads the snapshot into a new store object and
    keeps it: the call writes nothing, and a second call works on the
    loaded store without loading or writing again. *)
Theorem snapshot_is_loaded_once
    X query max_length query' max_length' w entries :
  vector_store w = None ->
  index_dir w !! faiss_index_path w = Some (Snapshot entries) ->
  let w1 := world_of (get_context_for_agent X query max_length w) in
  let w2 := world_of (get_context_for_agent X query' max_length' w1) in
  vector_store w1 = Some (length (heap w))
  /\ heap w1 = heap w ++ [entries]
  /\ index_dir w1 = index_dir w /\ saves w1 = saves w
  /\ vector_store w2 = vector_store w1
  /\ heap w2 = heap w1
  /\ index_dir w2 = index_dir w /\ saves w2 = saves w.
Proof.
  intros Hstore Hindex. cbn zeta.
  assert (Hfirst :
    exists lines,
      world_of (get_context_for_agent X query max_length w)
      = {| knowledge_base_path := knowledge_base_path w;
           vector_store := Some (length (heap w));
           qa_chain := qa_chain w;
           heap := heap w ++ [entries];
           kb_dir := kb_dir w; index_dir := index_dir w;
           saves := saves w; stdout := stdout w ++ lines |}).
  { rewrite get_context_for_agent_eq, retrieve_context_eq,
      ensure_vector_store_eq, Hstore, load_vector_store_eq, Hindex.
    cbn [vector_store emit set_vector_store set_heap heap].
    destruct (similarity_search X _ query 4) as [[|d ds]|e];
      cbn [world_of emit]; unfold emit, set_vector_store, set_heap; cbn;
      eexists; try reflexivity.
    rewrite <- app_assoc. reflexivity. }
  destruct Hfirst as [lines ->]. cbn [vector_store heap index_dir saves].
  do 4 (split; [reflexivity|]).
  rewrite get_context_for_agent_eq, retrieve_context_eq,
    ensure_vector_store_eq.
  cbn [vector_store heap].
  destruct (similarity_search X _ query' 4) as [[|d ds]|e];
    cbn; auto.
Qed.

Lemma snapshot_is_loaded_once_witness :
  let w := init "knowledge_base" [scope1_file]
             {[ "knowledge_base/faiss_index" := Snapshot [scope1_doc] ]} in
  let w1 := world_of (get_context_for_agent offline "What is Scope 1?" 2000 w) in
  let w2 := world_of (get_context_for_agent offline "Scope 2?" 100 w1) in
  vector_store w1 = Some (length (heap w))
  /\ heap w1 = heap w ++ [[scope1_doc]]
  /\ index_dir w1 = index_dir w /\ saves w1 = saves w
  /\ vector_store w2 = vector_store w1
  /\ heap w2 = heap w1
  /\ index_dir w2 = index_dir w /\ saves w2 = saves w.
Proof.
  apply (snapshot_is_loaded_once offline "What is Scope 1?" 2000 "Scope 2?"
           100
           (init "knowledge_base" [scope1_file]
              {[ "knowledge_base/faiss_index" := Snapshot [scope1_doc] ]})
           [scope1_doc]).
  - reflexivity.
  - vm_compute. reflexivity.
Defined.
